(** * selenium-cucumber.js: session lifecycle and wait helpers

    A shallow embedding of the driver factories ([chromeDriver.js],
    [firefoxDriver.js], [phantomDriver.js], [electronDriver.js]), of the
    cucumber support file [world.js] (driver dispatch, [createWorld], the
    [BeforeScenario] / [After] / [AfterFeatures] hooks) and of the wait
    helpers of [utility/helpers.js].

    JavaScript values are a small tagged union, the [global] object is a
    finite map from property names to values, WebDriver sessions live in
    a store indexed by their handle, and every command sent to a browser
    is appended to a chronological trace.  Hooks run in an error monad
    over that state: a synchronous [throw] is the monad's failure, a
    promise is a settled value that is either resolved or rejected. *)

From Stdlib Require Import ZArith Lia.
From stdpp Require Import base option list gmap strings pretty.

Local Open Scope string_scope.
Local Open Scope list_scope.

(** ** JavaScript values *)

(** The values that flow through [world.js].  Sessions are objects with
    identity: the handle is the index of the session in the store. *)
Inductive jsval : Type :=
  | VUndefined
  | VNull
  | VBool (b : bool)
  | VNum (n : Z)
  | VStr (s : string)
  | VSession (h : nat)
  | VRef (name : string)
  | VEmptyObject.

#[global] Instance jsval_eq_dec : EqDecision jsval.
Proof. solve_decision. Defined.

(** JavaScript truthiness, as used by [!driver], [a || b] and [if (x)]. *)
Definition truthy (v : jsval) : bool :=
  match v with
  | VUndefined | VNull => false
  | VBool b => b
  | VNum n => negb (n =? 0)%Z
  | VStr s => negb (String.eqb s "")
  | VSession _ | VRef _ | VEmptyObject => true
  end.

(** [a || b] on values. *)
Definition js_or (a b : jsval) : jsval := if truthy a then a else b.

(** Errors that can be thrown or carried by a rejected promise. *)
Inductive exn : Type :=
  | Error (msg : string)
  | TypeError (msg : string)
  | WebDriverError (msg : string)
  | WaitTimeoutError (msg : string).

(** A settled promise. *)
Inductive promise (A : Type) : Type :=
  | Resolved (a : A)
  | Rejected (e : exn).
Arguments Resolved {A} a.
Arguments Rejected {A} e.

(** ** Capabilities and sessions *)

(** The object literal handed to [Builder.withCapabilities]. *)
#[warnings="-register-all"]
Inductive capval : Type :=
  | CStr (s : string)
  | CBool (b : bool)
  | CArr (items : list string)
  | CObj (fields : list (string * capval)).

Definition capabilities : Type := list (string * capval).

Fixpoint cap_get (key : string) (caps : capabilities) : option capval :=
  match caps with
  | [] => None
  | (k, v) :: rest => if String.eqb k key then Some v else cap_get key rest
  end.

Fixpoint cap_set (key : string) (v : capval) (caps : capabilities) : capabilities :=
  match caps with
  | [] => [(key, v)]
  | (k, v0) :: rest =>
      if String.eqb k key then (k, v) :: rest else (k, v0) :: cap_set key v rest
  end.

(** One browser session as the remote end sees it. *)
Record Session : Type := mkSession {
  sess_caps : capabilities;
  sess_maximized : bool;
  sess_window_open : bool;
  sess_quit : bool
}.

Definition sess_live (s : Session) : bool :=
  sess_window_open s && negb (sess_quit s).

(** Commands and observable actions, in the order they are issued. *)
Inductive event : Type :=
  | EBuild (h : nat)
  | EMaximize (h : nat)
  | ETakeScreenshot (h : nat)
  | EAttach (scenario data mime : string)
  | EDeleteAllCookies (h : nat)
  | EClearStorages (h : nat)
  | EClose (h : nat)
  | EQuit (h : nat)
  | EGetAllWindowHandles (h : nat)
  | ESleep (h : nat) (ms : Z)
  | EReport (jsonFile output : string)
  | EWriteFile (file data : string)
  | EAbortEyes
  | EDone.

#[global] Instance event_eq_dec : EqDecision event.
Proof. solve_decision. Defined.

(** ** Configuration and environment *)

(** The globals that [index.js] sets before cucumber loads [world.js];
    they are read, never written, by the code below. *)
Record Config : Type := mkConfig {
  browserName : string;
  browserTeardownStrategy : string;
  DEFAULT_TIMEOUT : Z;
  noScreenshot : bool;
  reportsPath : string;
  junitPath : string
}.

(** What a custom driver module does when it is required and called. *)
Inductive CustomFactory : Type :=
  | CFThrows (e : exn)
  | CFBuilds (caps : capabilities) (maximize : bool)
  | CFReturns (v : jsval).

(** The outside world: node's [path] and [fs], the installed driver
    binaries, the modules on disk, what the browser shows, and the report
    writers ([reporter.generate], [fs.readFileSync], [String.prototype.trim],
    [cucumberJunit], [fs.writeFileSync]), each of which returns or throws. *)
Record Env : Type := mkEnv {
  cwd : string;
  path_resolve : string -> string -> string;
  isFileSync : string -> bool;
  existsSync : string -> bool;
  chromedriver_path : string;
  geckodriver_path : string;
  phantomjs_path : string;
  require_module : string -> CustomFactory;
  screenshot_png : nat -> Z -> string;
  window_handles : nat -> Z -> list string;
  reporter_generate : string -> string -> option exn;
  readFileSync : string -> exn + string;
  string_trim : string -> string;
  cucumberJunit : string -> exn + string;
  writeFileSync : string -> string -> option exn
}.

(** ** Program state *)

Record World : Type := mkWorld {
  w_driver : jsval;
  w_eyes : jsval;
  w_globals : gmap string jsval;
  w_sessions : list Session;
  w_trace : list event;
  w_clock : Z
}.

Definition set_driver (v : jsval) (w : World) : World :=
  mkWorld v (w_eyes w) (w_globals w) (w_sessions w) (w_trace w) (w_clock w).
Definition set_globals (g : gmap string jsval) (w : World) : World :=
  mkWorld (w_driver w) (w_eyes w) g (w_sessions w) (w_trace w) (w_clock w).
Definition set_sessions (ss : list Session) (w : World) : World :=
  mkWorld (w_driver w) (w_eyes w) (w_globals w) ss (w_trace w) (w_clock w).
Definition set_trace (t : list event) (w : World) : World :=
  mkWorld (w_driver w) (w_eyes w) (w_globals w) (w_sessions w) t (w_clock w).
Definition set_clock (c : Z) (w : World) : World :=
  mkWorld (w_driver w) (w_eyes w) (w_globals w) (w_sessions w) (w_trace w) c.

(** The state when cucumber has just loaded [world.js]: [let driver, eyes]
    are both [undefined], no session exists, nothing has happened. *)
Definition initial_world (g : gmap string jsval) : World :=
  mkWorld VUndefined VUndefined g [] [] 0.

(** ** The monad of hooks *)

Inductive completion (A : Type) : Type :=
  | Normal (a : A)
  | Thrown (e : exn).
Arguments Normal {A} a.
Arguments Thrown {A} e.

Definition M (A : Type) : Type := World -> completion A * World.

Definition ret {A} (a : A) : M A := fun w => (Normal a, w).
Definition throw {A} (e : exn) : M A := fun w => (Thrown e, w).
Definition bind {A B} (m : M A) (k : A -> M B) : M B :=
  fun w => match m w with
           | (Normal a, w') => k a w'
           | (Thrown e, w') => (Thrown e, w')
           end.
Definition get : M World := fun w => (Normal w, w).
Definition modify (f : World -> World) : M unit := fun w => (Normal tt, f w).
Definition emit (e : event) : M unit :=
  modify (fun w => set_trace (w_trace w ++ [e]) w).

Declare Scope hook_scope.
Delimit Scope hook_scope with hook.
Notation "x ← m ; k" := (bind m (fun x => k))
  (at level 20, m at level 100, k at level 200, only parsing) : hook_scope.
Notation "m ;; k" := (bind m (fun _ => k))
  (at level 100, k at level 200, only parsing, right associativity) : hook_scope.
Local Open Scope hook_scope.

(** A call of an external function that returns nothing, or throws. *)
Definition external_call (outcome : option exn) : M unit :=
  match outcome with
  | None => ret tt
  | Some e => throw e
  end.

(** A call of an external function that returns a value, or throws. *)
Definition external_value {A} (outcome : exn + A) : M A :=
  match outcome with
  | inr a => ret a
  | inl e => throw e
  end.

(** [await p] inside an async function: a rejection becomes a throw. *)
Definition await {A} (m : M (promise A)) : M A :=
  p ← m;
  match p with
  | Resolved a => ret a
  | Rejected e => throw e
  end.

(** What cucumber makes of a hook: it awaits the promise the hook returns
    and also catches what the hook throws; either way the hook has failed
    and the run goes on. *)
Definition run_hook {A} (m : M (promise A)) : M (promise A) :=
  fun w => match m w with
           | (Thrown e, w') => (Normal (Rejected e), w')
           | r => r
           end.

(** The promise an async function returns: a throw in the body rejects it. *)
Definition async {A} (m : M A) : M (promise A) :=
  fun w => match m w with
           | (Normal a, w') => (Normal (Resolved a), w')
           | (Thrown e, w') => (Normal (Rejected e), w')
           end.

(** [p.then(f)]: [f] runs on the resolved value, a throw in [f] rejects the
    resulting promise, a rejected [p] skips [f]. *)
Definition then_ {A B} (m : M (promise A)) (f : A -> M (promise B)) : M (promise B) :=
  p ← m;
  match p with
  | Resolved a =>
      fun w => match f a w with
               | (Normal q, w') => (Normal q, w')
               | (Thrown e, w') => (Normal (Rejected e), w')
               end
  | Rejected e => ret (Rejected e)
  end.

(** ** WebDriver commands *)

(** Property access on a value that must be a driver object. *)
Definition as_session (v : jsval) : M nat :=
  match v with
  | VSession h => ret h
  | _ => throw (TypeError "Cannot read property of a value that is not a driver")
  end.

(** A command sent to session [h]: it is logged, and it is answered only by
    a session that is still live. *)
Definition command {A} (h : nat) (e : event) (answer : World -> A)
    (effect : Session -> Session) : M (promise A) :=
  emit e ;;
  w ← get;
  match w_sessions w !! h with
  | Some s =>
      if sess_live s
      then modify (fun w => set_sessions (<[h := effect s]> (w_sessions w)) w) ;;
           ret (Resolved (answer w))
      else ret (Rejected (WebDriverError "no such session"))
  | None => ret (Rejected (WebDriverError "no such session"))
  end.

(** [new selenium.Builder()...build()]: a new live session, its handle is
    the next free index of the store. *)
Definition build (caps : capabilities) : M nat :=
  w ← get;
  let h := length (w_sessions w) in
  modify (fun w => set_sessions (w_sessions w ++ [mkSession caps false true false]) w) ;;
  emit (EBuild h) ;;
  ret h.

(** [driver.manage().window().maximize()] *)
Definition maximize (h : nat) : M (promise unit) :=
  command h (EMaximize h) (fun _ => tt)
    (fun s => mkSession (sess_caps s) true (sess_window_open s) (sess_quit s)).

(** [driver.takeScreenshot()]: resolves with the base64 PNG of the page. *)
Definition takeScreenshot (E : Env) (h : nat) : M (promise string) :=
  command h (ETakeScreenshot h) (fun w => screenshot_png E h (w_clock w)) id.

(** [driver.manage().deleteAllCookies()] *)
Definition deleteAllCookies (h : nat) : M (promise unit) :=
  command h (EDeleteAllCookies h) (fun _ => tt) id.

(** [driver.executeScript('window.localStorage.clear(); window.sessionStorage.clear();')] *)
Definition executeScript_clearStorages (h : nat) : M (promise unit) :=
  command h (EClearStorages h) (fun _ => tt) id.

(** [driver.getAllWindowHandles()] *)
Definition getAllWindowHandles (E : Env) (h : nat) : M (promise (list string)) :=
  command h (EGetAllWindowHandles h) (fun w => window_handles E h (w_clock w)) id.

(** [driver.sleep(ms)]: resolves after [ms] milliseconds of virtual time. *)
Definition sleep (h : nat) (ms : Z) : M (promise unit) :=
  emit (ESleep h ms) ;;
  modify (fun w => set_clock (w_clock w + ms) w) ;;
  ret (Resolved tt).

(** [driver.close()]: closes the current window. *)
Definition close (h : nat) : M (promise unit) :=
  command h (EClose h) (fun _ => tt)
    (fun s => mkSession (sess_caps s) (sess_maximized s) false (sess_quit s)).

(** [driver.quit()]: ends the session; it is accepted as long as the
    session has not been quit before, also when its window is closed. *)
Definition quit (h : nat) : M (promise unit) :=
  emit (EQuit h) ;;
  w ← get;
  match w_sessions w !! h with
  | Some s =>
      if sess_quit s
      then ret (Rejected (WebDriverError "no such session"))
      else modify (fun w => set_sessions
                     (<[h := mkSession (sess_caps s) (sess_maximized s) false true]>
                        (w_sessions w)) w) ;;
           ret (Resolved tt)
  | None => ret (Rejected (WebDriverError "no such session"))
  end.

(** ** Driver factories *)

Section Drivers.
Context (E : Env).

(** chromeDriver.js *)
Definition chrome_capabilities : capabilities :=
  [ ("browserName", CStr "chrome");
    ("javascriptEnabled", CBool true);
    ("acceptSslCerts", CBool true);
    ("chromeOptions", CObj [("args", CArr ["start-maximized"; "disable-extensions"])]);
    ("path", CStr (chromedriver_path E)) ].

Definition ChromeDriver : M jsval :=
  driver ← build chrome_capabilities;
  maximize driver ;;
  ret (VSession driver).

(** firefoxDriver.js *)
Definition firefox_capabilities : capabilities :=
  [ ("browserName", CStr "firefox");
    ("javascriptEnabled", CBool true);
    ("acceptSslCerts", CBool true);
    ("webdriver.firefox.bin", CStr (geckodriver_path E)) ].

Definition FireFoxDriver : M jsval :=
  driver ← build firefox_capabilities;
  maximize driver ;;
  ret (VSession driver).

(** phantomDriver.js *)
Definition phantomjs_capabilities : capabilities :=
  [ ("browserName", CStr "phantomjs");
    ("javascriptEnabled", CBool true);
    ("acceptSslCerts", CBool true);
    ("phantomjs.binary.path", CStr (phantomjs_path E));
    ("phantomjs.cli.args", CStr "--ignore-ssl-errors=true") ].

Definition PhantomJSDriver : M jsval :=
  driver ← build phantomjs_capabilities;
  maximize driver ;;
  ret (VSession driver).

(** electronDriver.js: [withCapabilities({chromeOptions: {binary: myapp}})
    .forBrowser('electron').build()], nothing else. *)
Definition myapp : string :=
  path_resolve E (cwd E) "MyApp.app/Contents/MacOS/MyApp".

Definition electron_capabilities : capabilities :=
  cap_set "browserName" (CStr "electron")
    [ ("chromeOptions", CObj [("binary", CStr myapp)]) ].

Definition ElectronDriver : M jsval :=
  driver ← build electron_capabilities;
  ret (VSession driver).

(** [require(driverFileName)()] for a custom driver module. *)
Definition require_and_call (driverFileName : string) : M jsval :=
  match require_module E driverFileName with
  | CFThrows e => throw e
  | CFBuilds caps mx =>
      driver ← build caps;
      (if mx then maximize driver ;; ret tt else ret tt) ;;
      ret (VSession driver)
  | CFReturns v => ret v
  end.
End Drivers.

(** ** world.js *)

Definition global_get (key : string) (g : gmap string jsval) : jsval :=
  default VUndefined (g !! key).

Definition set_global (key : string) (v : jsval) : M unit :=
  modify (fun w => set_globals (<[key := v]> (w_globals w)) w).

Record Scenario : Type := mkScenario {
  sc_name : string;
  isFailed : bool
}.

Section WorldJS.
Context (E : Env) (C : Config).

(** [switch (browserName || '')] with its four named cases and the
    default that loads a driver file. *)
Definition getDriverInstance : M jsval :=
  driver ←
    (if String.eqb (browserName C) "firefox" then FireFoxDriver E
     else if String.eqb (browserName C) "phantomjs" then PhantomJSDriver E
     else if String.eqb (browserName C) "electron" then ElectronDriver E
     else if String.eqb (browserName C) "chrome" then ChromeDriver E
     else
       let driverFileName := path_resolve E (cwd E) (browserName C) in
       if negb (isFileSync E driverFileName)
       then throw (Error ("Could not find driver file: " +:+ driverFileName))
       else require_and_call E driverFileName);
  modify (set_driver driver) ;;
  set_global "driver" driver ;;
  w ← get;
  ret (global_get "driver" (w_globals w)).

(** The [runtime] object literal of [createWorld], in key order. *)
Definition runtime (g : gmap string jsval) : list (string * jsval) :=
  [ ("driver", VNull);
    ("eyes", VNull);
    ("selenium", VRef "selenium");
    ("By", VRef "selenium.By");
    ("by", VRef "selenium.By");
    ("until", VRef "selenium.until");
    ("expect", VRef "chai.expect");
    ("assert", VRef "chai.assert");
    ("trace", VRef "consoleInfo");
    ("page", js_or (global_get "page" g) VEmptyObject);
    ("shared", js_or (global_get "shared" g) VEmptyObject) ].

(** The body of the [forEach] callback, for one key. *)
Definition expose (g : gmap string jsval) (kv : string * jsval) : gmap string jsval :=
  if String.eqb (kv.1) "driver" && negb (String.eqb (browserTeardownStrategy C) "always")
  then g
  else <[kv.1 := kv.2]> g.

Definition createWorld_globals (g : gmap string jsval) : gmap string jsval :=
  foldl expose g (runtime g).

Definition createWorld : M unit :=
  modify (fun w => set_globals (createWorld_globals (w_globals w)) w).
End WorldJS.

(** ** utility/helpers.js *)

(** In [helpers.js] the free variable [driver] is the property [driver] of
    [global]: reading it when nothing has ever assigned it throws a
    ReferenceError, and using a value that is not a driver a TypeError. *)
Definition global_driver : M nat :=
  w ← get;
  match w_globals w !! "driver" with
  | Some v => as_session v
  | None => throw (Error "ReferenceError: driver is not defined")
  end.

(** [waitInMilliseconds || DEFAULT_TIMEOUT]: an omitted argument is
    [undefined], and [undefined] and [0] are falsy. *)
Definition or_default (waitInMilliseconds : option Z) (dflt : Z) : Z :=
  match waitInMilliseconds with
  | Some n => if (n =? 0)%Z then dflt else n
  | None => dflt
  end.

(** String concatenation with the optional number:
    [' after ' + waitInMilliseconds + ' milliseconds'].  JavaScript prints
    an integer in decimal as long as it is below 10^21 in absolute value;
    the statements below that read the digits assume that range. *)
Definition to_String (waitInMilliseconds : option Z) : string :=
  match waitInMilliseconds with
  | Some n => pretty n
  | None => "undefined"
  end.

(** The three arguments of a [driver.wait] call. *)
Record WaitDescriptor : Type := mkWait {
  wd_condition : M (promise bool);
  wd_timeout : Z;
  wd_message : string
}.

(** What the page shows to [findElement] and [getAttribute], how far
    apart the polls of selenium's [driver.wait] are, and how many further
    polls of a wait the model follows after the first one (its fuel). *)
Record Page : Type := mkPage {
  attribute_at : nat -> Z -> string -> string -> option (option string);
  polls_within : Z -> nat;
  poll_interval : Z
}.

Section Helpers.
Context (E : Env) (C : Config) (P : Page).

Definition clearCookies : M (promise unit) :=
  h ← global_driver;
  deleteAllCookies h.

Definition clearStorages : M (promise unit) :=
  h ← global_driver;
  executeScript_clearStorages h.

(** [helpers.clearCookies().then(helpers.clearStorages())]: both calls
    are made, in this order; [then] is given a promise, not a function,
    so the result follows the first promise. *)
Definition clearCookiesAndStorages : M (promise unit) :=
  p ← clearCookies;
  clearStorages ;;
  ret p.

(** [driver.findElement(by.css(sel)).then(el => el.getAttribute(name))];
    [None] is JavaScript's [null]. *)
Definition getAttributeValue (htmlCssSelector attributeName : string)
    : M (promise (option string)) :=
  h ← global_driver;
  w ← get;
  match attribute_at P h (w_clock w) htmlCssSelector attributeName with
  | Some value => ret (Resolved value)
  | None => ret (Rejected (WebDriverError ("no such element: " +:+ htmlCssSelector)))
  end.

(** The line feed between the two lines of a timeout message. *)
Definition newline : string := String (Ascii.ascii_of_nat 10) "".

(** [new Promise(resolve => resolve(fn(driver)))]: what the condition
    throws rejects the promise. *)
Definition evaluateCondition (condition : M (promise bool)) : M (promise bool) :=
  then_ (ret (Resolved tt)) (fun _ => condition).

(** The polling loop of selenium's [driver.wait(condition, timeout,
    message)], the external wait engine.  After each evaluation of the
    condition: a truthy value resolves the wait, a rejected condition
    rejects it, and a falsy one rejects it with a timeout error when
    [timeout] is not 0 and the time since [start] has reached it; the
    message of that error is [message], a line feed and ["Wait timed out
    after <elapsed>ms"].  Otherwise the condition is polled again after
    the polling interval.  A timeout of 0 never times out.  [None] means
    that the wait is still pending when the polls that the model follows
    are used up. *)
Fixpoint wait_poll (condition : M (promise bool)) (timeout : Z) (message : string)
    (start : Z) (polls : nat) : M (option (promise bool)) :=
  r ← evaluateCondition condition;
  match r with
  | Rejected e => ret (Some (Rejected e))
  | Resolved true => ret (Some (Resolved true))
  | Resolved false =>
      w ← get;
      let elapsed := (w_clock w - start)%Z in
      if negb (timeout =? 0)%Z && (timeout <=? elapsed)%Z
      then ret (Some (Rejected (WaitTimeoutError
                  (message +:+ newline +:+ "Wait timed out after "
                     +:+ pretty elapsed +:+ "ms"))))
      else
        match polls with
        | O => ret None
        | S polls' =>
            modify (fun w => set_clock (w_clock w + poll_interval P) w) ;;
            wait_poll condition timeout message start polls'
        end
  end.

(** [driver.wait(...)]: a negative timeout is refused with a TypeError
    before anything is polled. *)
Definition driver_wait (d : WaitDescriptor) : M (option (promise bool)) :=
  global_driver ;;
  if (wd_timeout d <? 0)%Z
  then throw (TypeError ("timeout must be a number >= 0: " +:+ pretty (wd_timeout d)))
  else
    w ← get;
    wait_poll (wd_condition d) (wd_timeout d) (wd_message d) (w_clock w)
              (polls_within P (wd_timeout d)).

(** [.then(value => ...)] on the attribute value. *)
Definition attribute_test (elementSelector attributeName : string)
    (test : option string -> bool) : M (promise bool) :=
  then_ (getAttributeValue elementSelector attributeName)
        (fun value => ret (Resolved (test value))).

Definition waitUntilAttributeEquals_descriptor
    (elementSelector attributeName attributeValue : string)
    (waitInMilliseconds : option Z) : WaitDescriptor :=
  let timeout := or_default waitInMilliseconds (DEFAULT_TIMEOUT C) in
  let timeoutMessage :=
    attributeName +:+ " does not equal " +:+ attributeValue +:+ " after "
      +:+ to_String waitInMilliseconds +:+ " milliseconds" in
  mkWait (attribute_test elementSelector attributeName
            (fun value => bool_decide (value = Some attributeValue)))
         timeout timeoutMessage.

Definition waitUntilAttributeEquals
    (elementSelector attributeName attributeValue : string)
    (waitInMilliseconds : option Z) : M (option (promise bool)) :=
  driver_wait (waitUntilAttributeEquals_descriptor
                 elementSelector attributeName attributeValue waitInMilliseconds).

Definition waitUntilAttributeExists_descriptor
    (elementSelector attributeName : string)
    (waitInMilliseconds : option Z) : WaitDescriptor :=
  let timeout := or_default waitInMilliseconds (DEFAULT_TIMEOUT C) in
  let timeoutMessage :=
    attributeName +:+ " does not exists after "
      +:+ to_String waitInMilliseconds +:+ " milliseconds" in
  mkWait (attribute_test elementSelector attributeName
            (fun value => negb (bool_decide (value = None))))
         timeout timeoutMessage.

Definition waitUntilAttributeExists
    (elementSelector attributeName : string)
    (waitInMilliseconds : option Z) : M (option (promise bool)) :=
  driver_wait (waitUntilAttributeExists_descriptor
                 elementSelector attributeName waitInMilliseconds).

Definition waitUntilAttributeDoesNotExists_descriptor
    (elementSelector attributeName : string)
    (waitInMilliseconds : option Z) : WaitDescriptor :=
  let timeout := or_default waitInMilliseconds (DEFAULT_TIMEOUT C) in
  let timeoutMessage :=
    attributeName +:+ " still exists after "
      +:+ to_String waitInMilliseconds +:+ " milliseconds" in
  mkWait (attribute_test elementSelector attributeName
            (fun value => bool_decide (value = None)))
         timeout timeoutMessage.

Definition waitUntilAttributeDoesNotExists
    (elementSelector attributeName : string)
    (waitInMilliseconds : option Z) : M (option (promise bool)) :=
  driver_wait (waitUntilAttributeDoesNotExists_descriptor
                 elementSelector attributeName waitInMilliseconds).

(** The timeout of [waitForNewWindows]. *)
Definition waitForNewWindows_timeout (waitInMilliseconds : option Z) : Z :=
  or_default waitInMilliseconds (DEFAULT_TIMEOUT C).

(** [for (let i = 0; i < timeout; i += 1000) { ... }].  The result is
    [Some (Some windows)] for [return windows], [Some None] when the loop
    ends and the function returns [undefined], and [None] only when the
    fuel of the model is used up before the loop ends. *)
Fixpoint waitForNewWindows_loop (fuel : nat) (timeout i : Z)
    : M (option (option (list string))) :=
  match fuel with
  | O => ret None
  | S fuel' =>
      if (i <? timeout)%Z then
        h ← global_driver;
        windows ← await (getAllWindowHandles E h);
        if (1 <? length windows)%nat then ret (Some (Some windows))
        else
          h' ← global_driver;
          await (sleep h' 1000) ;;
          waitForNewWindows_loop fuel' timeout (i + 1000)
      else ret (Some None)
  end.

Definition waitForNewWindows (waitInMilliseconds : option Z)
    : M (promise (option (option (list string)))) :=
  let timeout := waitForNewWindows_timeout waitInMilliseconds in
  async (waitForNewWindows_loop (S (Z.to_nat timeout)) timeout 0).
End Helpers.

(** ** world.js: teardown and hooks *)

Section Hooks.
Context (E : Env) (C : Config).

(** [closeBrowser]: here [driver] is the module variable of [world.js]. *)
Definition closeBrowser : M (promise unit) :=
  then_ (w ← get; h ← as_session (w_driver w); close h)
        (fun _ =>
           if negb (String.eqb (browserName C) "firefox")
           then w ← get; h ← as_session (w_driver w); quit h
           else ret (Resolved tt)).

(** [teardownBrowser]: [await Promise.resolve()] only yields once, the
    call to [closeBrowser] is commented out, and the promise of
    [clearCookiesAndStorages] is not awaited. *)
Definition teardownBrowser : M (promise unit) :=
  async (clearCookiesAndStorages ;; ret tt).

(** The [BeforeScenario] handler:
    [global.driver = !driver ? getDriverInstance() : driver]. *)
Definition BeforeScenario : M unit :=
  w ← get;
  v ← (if negb (truthy (w_driver w)) then getDriverInstance E C else ret (w_driver w));
  set_global "driver" v.

(** The report block of [AfterFeatures].  The HTML generator, the read of
    the JSON report, the JUnit converter and the write of the XML file are
    external calls, made in this order; the first one that throws ends the
    handler with its error. *)
Definition generate_reports : M unit :=
  let cucumberReportPath := path_resolve E (reportsPath C) "cucumber-report.json" in
  if negb (String.eqb (reportsPath C) "") && existsSync E (reportsPath C)
  then
    let output := path_resolve E (reportsPath C) "cucumber-report.html" in
    emit (EReport cucumberReportPath output) ;;
    external_call (reporter_generate E cucumberReportPath output) ;;
    reportRaw ← external_value (readFileSync E cucumberReportPath);
    xmlReport ← external_value (cucumberJunit E (string_trim E reportRaw));
    let junitOutputPath := path_resolve E (junitPath C) "junit-report.xml" in
    emit (EWriteFile junitOutputPath xmlReport) ;;
    external_call (writeFileSync E junitOutputPath xmlReport)
  else ret tt.

(** The [AfterFeatures] handler.  It returns nothing: the promise of the
    teardown is dropped, [done] is called when it resolves. *)
Definition AfterFeatures : M unit :=
  generate_reports ;;
  (if negb (String.eqb (browserTeardownStrategy C) "always")
   then then_ closeBrowser (fun _ => emit EDone ;; ret (Resolved tt))
   else emit EDone ;; ret (Resolved tt)) ;;
  ret tt.

(** [if (eyes) return eyes.abortIfNotClosed()]: [eyes] is the module
    variable, which nothing assigns. *)
Definition abort_eyes : M (promise unit) :=
  w ← get;
  if truthy (w_eyes w)
  then emit EAbortEyes ;; ret (Resolved tt)
  else ret (Resolved tt).

(** The [After] hook of every scenario. *)
Definition After (scenario : Scenario) : M (promise unit) :=
  if isFailed scenario && negb (noScreenshot C)
  then
    then_ (w ← get; h ← as_session (global_get "driver" (w_globals w)); takeScreenshot E h)
          (fun screenShot =>
             emit (EAttach (sc_name scenario) screenShot "image/png") ;;
             clearCookiesAndStorages ;;
             then_ teardownBrowser (fun _ => abort_eyes))
  else teardownBrowser.

(** One scenario as cucumber drives it: a new World, the before handler,
    the steps (which see [global.driver]), then the after hook.  The
    value returned is the driver the steps saw. *)
Definition run_scenario (scenario : Scenario) : M jsval :=
  createWorld C ;;
  BeforeScenario ;;
  w ← get;
  let seen := global_get "driver" (w_globals w) in
  run_hook (After scenario) ;;
  ret seen.

Fixpoint run_scenarios (scenarios : list Scenario) : M (list jsval) :=
  match scenarios with
  | [] => ret []
  | scenario :: rest =>
      seen ← run_scenario scenario;
      seens ← run_scenarios rest;
      ret (seen :: seens)
  end.

(** A whole run: the support file is loaded ([createWorld()]), the
    scenarios run one after the other, then [AfterFeatures]. *)
Definition run (scenarios : list Scenario) : M (list jsval) :=
  createWorld C ;;
  seens ← run_scenarios scenarios;
  AfterFeatures ;;
  ret seens.
End Hooks.

(** ** Concrete inputs used by the examples *)

Definition demo_env : Env :=
  mkEnv "/home/ci"
        (fun dir file => dir +:+ "/" +:+ file)
        (fun file => String.eqb file "/home/ci/drivers/opera.js")
        (fun _ => false)
        "/opt/bin/chromedriver" "/opt/bin/geckodriver" "/opt/bin/phantomjs"
        (fun _ => CFBuilds [("browserName", CStr "opera")] false)
        (fun _ _ => "iVBORw0KGgo=")
        (fun _ t => if (t <? 2000)%Z then ["main"] else ["main"; "popup"])
        (fun _ _ => None)
        (fun file => inl (Error ("ENOENT: no such file or directory, open " +:+ file)))
        (fun text => text)
        (fun json => inr ("<testsuites>" +:+ json +:+ "</testsuites>"))
        (fun _ _ => None).

(** The same machine with a reports directory on disk (every path exists
    for [fs.existsSync]), but no [cucumber-report.json] in it: the read of
    the report throws. *)
Definition reports_env : Env :=
  mkEnv (cwd demo_env) (path_resolve demo_env) (isFileSync demo_env) (fun _ => true)
        (chromedriver_path demo_env) (geckodriver_path demo_env) (phantomjs_path demo_env)
        (require_module demo_env) (screenshot_png demo_env) (window_handles demo_env)
        (reporter_generate demo_env) (readFileSync demo_env) (string_trim demo_env)
        (cucumberJunit demo_env) (writeFileSync demo_env).

Definition reports_config (browser strategy : string) : Config :=
  mkConfig browser strategy 10000 false "/home/ci/reports" "/home/ci/reports".

Definition demo_config (browser strategy : string) : Config :=
  mkConfig browser strategy 10000 false "" "".

Definition demo_page : Page :=
  mkPage (fun _ _ _ _ => Some (Some "true")) (fun timeout => Z.to_nat (timeout / 500)) 500.


(** ** Observations on sessions and traces *)

(** The session a factory call has just created, if it returned one. *)
Definition new_session (m : M jsval) (w : World) : option Session :=
  match m w with
  | (Normal (VSession h), w') => w_sessions w' !! h
  | _ => None
  end.

(** [acceptSslCerts: true] among the capabilities of the session. *)
Definition ssl_trust (s : Session) : bool :=
  match cap_get "acceptSslCerts" (sess_caps s) with
  | Some (CBool true) => true
  | _ => false
  end.

Definition is_build (e : event) : bool :=
  match e with EBuild _ => true | _ => false end.

Definition is_teardown (e : event) : bool :=
  match e with EClose _ | EQuit _ => true | _ => false end.

Definition is_hygiene (e : event) : bool :=
  match e with EDeleteAllCookies _ | EClearStorages _ => true | _ => false end.

(** [h] is a session of the store that still answers commands. *)
Definition live (h : nat) (w : World) : Prop :=
  exists s, w_sessions w !! h = Some s /\ sess_live s = true.


(** The timeouts that the four wait helpers compute from one argument. *)
Definition helper_timeouts (C : Config) (P : Page)
    (elementSelector attributeName attributeValue : string)
    (waitInMilliseconds : option Z) : list Z :=
  [ wd_timeout (waitUntilAttributeEquals_descriptor C P elementSelector attributeName
                  attributeValue waitInMilliseconds);
    wd_timeout (waitUntilAttributeExists_descriptor C P elementSelector attributeName
                  waitInMilliseconds);
    wd_timeout (waitUntilAttributeDoesNotExists_descriptor C P elementSelector attributeName
                  waitInMilliseconds);
    waitForNewWindows_timeout C waitInMilliseconds ].

(** The wait in the words of the specification: look at the open windows
    once a second, [polls] times at most, starting at time [now]; the first
    list with more than one window is the result, and there is none when
    no poll sees a second window. *)
Fixpoint poll_every_second (E : Env) (h : nat) (polls : nat) (now : Z)
    : option (list string) :=
  match polls with
  | O => None
  | S polls' =>
      let windows := window_handles E h now in
      if (1 <? length windows)%nat then Some windows
      else poll_every_second E h polls' (now + 1000)
  end.

(** The commands of that wait: a poll, and a sleep of one second after
    every poll that did not see a second window. *)
Fixpoint poll_trace (E : Env) (h : nat) (polls : nat) (now : Z) : list event :=
  match polls with
  | O => []
  | S polls' =>
      EGetAllWindowHandles h ::
      (if (1 <? length (window_handles E h now))%nat then []
       else ESleep h 1000 :: poll_trace E h polls' (now + 1000))
  end.

(** The number of multiples of 1000 below [timeout], from 0 on. *)
Definition polls_before (timeout : Z) : nat := Z.to_nat ((timeout + 999) / 1000).

Definition is_lifecycle (e : event) : bool := is_build e || is_teardown e.

(** The sessions built, closed and quit so far, in order. *)
Definition lifecycle (t : list event) : list event := filter is_lifecycle t.

(** Everything but the log of the commands that neither create nor destroy
    a session. *)
Definition lifecycle_state (w : World)
    : jsval * jsval * gmap string jsval * list Session * list event :=
  (w_driver w, w_eyes w, w_globals w, w_sessions w, lifecycle (w_trace w)).

(** The close and quit commands sent so far. *)
Definition teardown_log (w : World) : list event := filter is_teardown (w_trace w).

(** [m] never changes the observation [obs] of the state. *)
Definition preserves {A T} (obs : World -> T) (m : M A) : Prop :=
  forall w, obs (m w).2 = obs w.

(** The events of the after hook of a failed scenario with screenshots on. *)
Definition failure_events (E : Env) (scenario : Scenario) (h : nat) (w : World)
    : list event :=
  [ ETakeScreenshot h;
    EAttach (sc_name scenario) (screenshot_png E h (w_clock w)) "image/png";
    EDeleteAllCookies h; EClearStorages h;
    EDeleteAllCookies h; EClearStorages h ]
  ++ (if truthy (w_eyes w) then [EAbortEyes] else []).

(** How the report block of [AfterFeatures] ends (it returns, or throws
    the error of a report call), and the calls it logs; neither depends on
    the state. *)
Definition report_result (E : Env) (C : Config) : completion unit :=
  (generate_reports E C (initial_world ∅)).1.

Definition report_events (E : Env) (C : Config) : list event :=
  w_trace (generate_reports E C (initial_world ∅)).2.

(** The close and quit events of [AfterFeatures]. *)
Definition final_teardown (C : Config) (h : nat) : list event :=
  if String.eqb (browserTeardownStrategy C) "always" then []
  else EClose h :: (if String.eqb (browserName C) "firefox" then [] else [EQuit h]).

(** The browser identifier is one for which [getDriverInstance] returns a
    new session: a named browser, or a driver file whose module builds one. *)
Definition provides_session (E : Env) (C : Config) : bool :=
  if String.eqb (browserName C) "firefox" then true
  else if String.eqb (browserName C) "phantomjs" then true
  else if String.eqb (browserName C) "electron" then true
  else if String.eqb (browserName C) "chrome" then true
  else
    let driverFileName := path_resolve E (cwd E) (browserName C) in
    isFileSync E driverFileName
    && match require_module E driverFileName with
       | CFBuilds _ _ => true
       | _ => false
       end.

(** Between two hooks of a run that reuses its session: [driver] and
    [global.driver] are the same live session [h], the only session ever
    built, and nothing has been closed or quit. *)
Definition session_shared (h : nat) (w : World) : Prop :=
  w_driver w = VSession h
  /\ global_get "driver" (w_globals w) = VSession h
  /\ live h w
  /\ lifecycle (w_trace w) = [EBuild h].

(** ** helpers.js: the functions that run inside the page *)

(** A DOM element as the injected scripts see it. *)
Record Element : Type := mkElement {
  el_id : nat;
  textContent : string;
  innerText : string
}.

#[global] Instance Element_eq_dec : EqDecision Element.
Proof. solve_decision. Defined.

(** The page and the JavaScript built-ins that the scripts and the element
    helpers use: ['textContent' in document], [querySelectorAll],
    [String.prototype.trim] and [toUpperCase], what a locator finds at a
    given time, the options of a select and the visible text of an element. *)
Record Document : Type := mkDocument {
  has_textContent : bool;
  querySelectorAll : string -> list Element;
  js_trim : string -> string;
  toUpperCase : string -> string;
  locate : nat -> Z -> string -> string -> option Element;
  option_elements : Element -> list Element;
  getText : Element -> string;
  function_source : string -> string
}.

(** [elements[i][txtProp]] *)
Definition txtProp (D : Document) (e : Element) : string :=
  if has_textContent D then textContent e else innerText e.

(** The [for] loop of [findElementsContainingText]: [results.push] on every
    element whose trimmed text is the trimmed content. *)
Fixpoint findElementsContainingText_loop (D : Document) (content : string)
    (elements results : list Element) : list Element :=
  match elements with
  | [] => results
  | e :: rest =>
      findElementsContainingText_loop D content rest
        (if String.eqb (js_trim D (txtProp D e)) (js_trim D content)
         then results ++ [e] else results)
  end.

Definition findElementsContainingText (D : Document) (query content : string)
    : list Element :=
  findElementsContainingText_loop D content (querySelectorAll D query) [].

(** [if (content)] on the optional text argument of [clickHiddenElement]. *)
Definition content_given (content : option string) : bool :=
  match content with
  | Some c => negb (String.eqb c "")
  | None => false
  end.

(** The [for] loop of [clickElementInDom]; the result is the list of the
    elements that were clicked, in the order of the clicks. *)
Fixpoint clickElementInDom_loop (D : Document) (content : option string)
    (elements clicked : list Element) : list Element :=
  match elements with
  | [] => clicked
  | e :: rest =>
      clickElementInDom_loop D content rest
        (if content_given content
         then (if bool_decide (Some (txtProp D e) = content)
               then clicked ++ [e] else clicked)
         else clicked ++ [e])
  end.

Definition clickElementInDom (D : Document) (query : string) (content : option string)
    : list Element :=
  clickElementInDom_loop D content (querySelectorAll D query) [].

(** A script or element query sent to session [h]: it is answered only by a
    session that is still live. *)
Definition answered {A} (h : nat) (a : A) : M (promise A) :=
  w ← get;
  match w_sessions w !! h with
  | Some s =>
      if sess_live s then ret (Resolved a)
      else ret (Rejected (WebDriverError "no such session"))
  | None => ret (Rejected (WebDriverError "no such session"))
  end.

(** [driver.findElements(by.js(findElementsContainingText, cssSelector, textToMatch))] *)
Definition getElementsContainingText (D : Document) (cssSelector textToMatch : string)
    : M (promise (list Element)) :=
  h ← global_driver;
  answered h (findElementsContainingText D cssSelector textToMatch).

(** [.then((elements) => elements[0])]; [None] is [undefined]. *)
Definition getFirstElementContainingText (D : Document) (cssSelector textToMatch : string)
    : M (promise (option Element)) :=
  then_ (getElementsContainingText D cssSelector textToMatch)
        (fun elements => ret (Resolved (elements !! 0%nat))).

(** ** helpers.js: waitForCssXpathElement and the dropdown helper *)

(** [const localizador = require("cucumber")]: the cucumber module. *)
Definition localizador : jsval := VRef "cucumber".

(** [v.indexOf(needle)]: a string has the method; on every other value of
    the model the property is missing and the call throws. *)
Definition js_indexOf (v : jsval) (needle : string) : M Z :=
  match v with
  | VStr s =>
      ret (match String.index 0 needle s with
           | Some i => Z.of_nat i
           | None => (-1)%Z
           end)
  | _ => throw (TypeError "indexOf is not a function")
  end.

(** A free variable that the file does not declare is looked up on
    [global]; reading one that is not there throws a ReferenceError. *)
Definition global_ref (name : string) : M jsval :=
  w ← get;
  match w_globals w !! name with
  | Some v => ret v
  | None => throw (Error ("ReferenceError: " +:+ name +:+ " is not defined"))
  end.

(** [v + ' ...']: the string a value turns into when it is concatenated. *)
Definition js_to_string (D : Document) (v : jsval) : string :=
  match v with
  | VUndefined => "undefined"
  | VNull => "null"
  | VBool true => "true"
  | VBool false => "false"
  | VNum n => pretty n
  | VStr s => s
  | VSession _ | VEmptyObject => "[object Object]"
  | VRef name => function_source D name
  end.

(** [driver.wait(selenium.until.elementLocated(locator), timeout, message)]
    as a bounded polling loop for a condition that yields an element. *)
Fixpoint wait_located (D : Document) (P : Page) (h : nat) (kind selector message : string)
    (polls : nat) : M (promise Element) :=
  w ← get;
  match locate D h (w_clock w) kind selector with
  | Some el => ret (Resolved el)
  | None =>
      match polls with
      | O => ret (Rejected (WaitTimeoutError message))
      | S polls' =>
          modify (fun w => set_clock (w_clock w + poll_interval P) w) ;;
          wait_located D P h kind selector message polls'
      end
  end.

Definition waitForCssXpathElement (C : Config) (D : Document) (P : Page)
    (elementSelector : string) (waitInMilliseconds : option Z) : M (promise Element) :=
  let timeout := or_default waitInMilliseconds (DEFAULT_TIMEOUT C) in
  i ← js_indexOf localizador "//";
  let selector := if (i =? 0)%Z then "xpath" else "css" in
  attributeName ← global_ref "attributeName";
  let timeoutMessage :=
    js_to_string D attributeName +:+ " still exists after "
      +:+ to_String waitInMilliseconds +:+ " milliseconds" in
  h ← global_driver;
  wait_located D P h selector elementSelector timeoutMessage (polls_within P timeout).

(** [options.indexOf(optionName)] on the list of option texts; [None] is -1. *)
Fixpoint list_indexOf (x : string) (l : list string) : option nat :=
  match l with
  | [] => None
  | y :: rest => if String.eqb y x then Some 0%nat else S <$> list_indexOf x rest
  end.

(** [for (let option of selectElements) options.push((await option.getText()).toUpperCase())] *)
Fixpoint option_texts (D : Document) (h : nat) (selectElements : list Element)
    (options : list string) : M (list string) :=
  match selectElements with
  | [] => ret options
  | option :: rest =>
      text ← await (answered h (getText D option));
      option_texts D h rest (options ++ [toUpperCase D text])
  end.

(** [selectDropdownValueByVisibleText]; the click itself changes nothing
    that the model of the state records. *)
Definition selectDropdownValueByVisibleText (C : Config) (D : Document) (P : Page)
    (elementSelector optionName : string) : M (promise unit) :=
  async (
    select ← await (waitForCssXpathElement C D P elementSelector None);
    h ← global_driver;
    selectElements ← await (answered h (option_elements D select));
    options ← option_texts D h selectElements [];
    let optionName := toUpperCase D optionName in
    match list_indexOf optionName options with
    | Some i =>
        match selectElements !! i with
        | Some option => await (answered h tt)
        | None => throw (TypeError "Cannot read property 'click' of undefined")
        end
    | None => throw (TypeError "Cannot read property 'click' of undefined")
    end).


(** A [trim] for the examples: it removes the spaces at both ends. *)
Fixpoint strip_left (s : string) : string :=
  match s with
  | String c rest => if Ascii.eqb c (Ascii.ascii_of_nat 32) then strip_left rest else s
  | EmptyString => s
  end.

Definition strip (s : string) : string :=
  String.rev (strip_left (String.rev (strip_left s))).

(** A page with three links, one of them with spaces around its text. *)
Definition demo_document : Document :=
  mkDocument true
    (fun query =>
       if String.eqb query "nav a"
       then [mkElement 1 "Home" "Home"; mkElement 2 " Safety Boots " "Safety Boots";
             mkElement 3 "Safety Boots" "Safety Boots"]
       else [])
    strip (fun s => s) (fun _ _ _ _ => None) (fun _ => []) textContent (fun name => name).

(** ** Basic facts about the store and the commands *)

Lemma lookup_snoc {A} (l : list A) (x : A) : (l ++ [x]) !! length l = Some x.
Proof. induction l as [|a l IH]; simpl; [reflexivity | exact IH]. Qed.

Lemma insert_snoc {A} (l : list A) (x y : A) : <[length l := y]> (l ++ [x]) = l ++ [y].
Proof. induction l as [|a l IH]; simpl; [reflexivity | now rewrite IH]. Qed.

Lemma insert_same {A} (l : list A) (i : nat) (x : A) : l !! i = Some x -> <[i := x]> l = l.
Proof. apply list_insert_id. Qed.

Lemma build_run caps w :
  build caps w =
  (Normal (length (w_sessions w)),
   mkWorld (w_driver w) (w_eyes w) (w_globals w)
           (w_sessions w ++ [mkSession caps false true false])
           (w_trace w ++ [EBuild (length (w_sessions w))]) (w_clock w)).
Proof. reflexivity. Qed.

(** A command that leaves the session as it is, sent to a live session. *)
Lemma command_id_run {A} h e (answer : World -> A) w :
  live h w ->
  command h e answer id w =
  (Normal (Resolved (answer (set_trace (w_trace w ++ [e]) w))),
   set_trace (w_trace w ++ [e]) w).
Proof.
  intros (s & Hs & Hl). unfold command, bind, emit, modify, get, ret. simpl.
  rewrite Hs, Hl. simpl. unfold id. rewrite (insert_same _ _ _ Hs).
  reflexivity.
Qed.

Lemma global_get_session key (g : gmap string jsval) h :
  global_get key g = VSession h -> g !! key = Some (VSession h).
Proof.
  unfold global_get. destruct (g !! key) as [v|]; simpl; [now intros -> | discriminate].
Qed.

Lemma global_driver_run h w :
  global_get "driver" (w_globals w) = VSession h -> global_driver w = (Normal h, w).
Proof.
  intros Hd. unfold global_driver, bind, get.
  now rewrite (global_get_session _ _ _ Hd).
Qed.

(** The body shared by the chrome, firefox and phantomjs factories. *)
Lemma build_maximize_run caps w :
  bind (build caps) (fun driver => bind (maximize driver) (fun _ => ret (VSession driver))) w =
  (Normal (VSession (length (w_sessions w))),
   mkWorld (w_driver w) (w_eyes w) (w_globals w)
           (w_sessions w ++ [mkSession caps true true false])
           (w_trace w ++ [EBuild (length (w_sessions w)); EMaximize (length (w_sessions w))])
           (w_clock w)).
Proof.
  unfold bind at 1. rewrite build_run.
  unfold bind, maximize, command, bind, emit, modify, get, ret. simpl.
  rewrite lookup_snoc. simpl. rewrite insert_snoc, <- app_assoc. reflexivity.
Qed.

Lemma ElectronDriver_run E w :
  ElectronDriver E w =
  (Normal (VSession (length (w_sessions w))),
   mkWorld (w_driver w) (w_eyes w) (w_globals w)
           (w_sessions w ++ [mkSession (electron_capabilities E) false true false])
           (w_trace w ++ [EBuild (length (w_sessions w))]) (w_clock w)).
Proof. reflexivity. Qed.

(** What [getDriverInstance] does once the factory has returned [v]. *)
Lemma publish_run (m : M jsval) v w w' :
  m w = (Normal v, w') ->
  bind m (fun driver =>
    bind (modify (set_driver driver)) (fun _ =>
    bind (set_global "driver" driver) (fun _ =>
    bind get (fun w => ret (global_get "driver" (w_globals w)))))) w =
  (Normal v, set_globals (<["driver" := v]> (w_globals w')) (set_driver v w')).
Proof.
  intros Hm. unfold bind at 1. rewrite Hm.
  unfold bind, modify, set_global, get, ret, global_get. simpl.
  rewrite lookup_insert_eq. reflexivity.
Qed.

(** ** Driver factories: SSL trust and maximized window *)

Lemma getDriverInstance_named_maximized E C w caps (factory : M jsval) :
  getDriverInstance E C w =
    bind factory (fun driver =>
      bind (modify (set_driver driver)) (fun _ =>
      bind (set_global "driver" driver) (fun _ =>
      bind get (fun w => ret (global_get "driver" (w_globals w)))))) w ->
  factory = bind (build caps) (fun driver => bind (maximize driver) (fun _ => ret (VSession driver))) ->
  new_session (getDriverInstance E C) w = Some (mkSession caps true true false).
Proof.
  intros Hg ->. unfold new_session. rewrite Hg.
  rewrite (publish_run _ _ _ _ (build_maximize_run caps w)). simpl.
  apply lookup_snoc.
Qed.

(** C9, as the code has it: the chrome, firefox and phantomjs factories
    produce a live session with [acceptSslCerts: true] and a maximized
    window; the electron factory produces a live session whose capabilities
    hold only the binary of the application and the browser name, without
    [acceptSslCerts], and does not maximize its window. *)
Theorem named_drivers_trust_and_maximize (E : Env) (C : Config) (w : World) :
  (In (browserName C) ["chrome"; "firefox"; "phantomjs"] ->
   exists s, new_session (getDriverInstance E C) w = Some s
             /\ ssl_trust s = true /\ sess_maximized s = true /\ sess_live s = true)
  /\ (browserName C = "electron" ->
      exists s, new_session (getDriverInstance E C) w = Some s
                /\ ssl_trust s = false /\ sess_maximized s = false /\ sess_live s = true).
Proof.
  split.
  - intros [H | [H | [H | []]]].
    + exists (mkSession (chrome_capabilities E) true true false).
      split; [| now repeat split].
      apply getDriverInstance_named_maximized with (factory := ChromeDriver E);
        [unfold getDriverInstance; rewrite <- H |]; reflexivity.
    + exists (mkSession (firefox_capabilities E) true true false).
      split; [| now repeat split].
      apply getDriverInstance_named_maximized with (factory := FireFoxDriver E);
        [unfold getDriverInstance; rewrite <- H |]; reflexivity.
    + exists (mkSession (phantomjs_capabilities E) true true false).
      split; [| now repeat split].
      apply getDriverInstance_named_maximized with (factory := PhantomJSDriver E);
        [unfold getDriverInstance; rewrite <- H |]; reflexivity.
  - intros H. exists (mkSession (electron_capabilities E) false true false).
    split; [| now repeat split].
    unfold new_session, getDriverInstance. rewrite H. simpl String.eqb. cbv iota.
    rewrite (publish_run _ _ _ _ (ElectronDriver_run E w)). simpl.
    apply lookup_snoc.
Qed.

Lemma named_drivers_trust_and_maximize_witness :
  (exists s, new_session (getDriverInstance demo_env (demo_config "firefox" "clear"))
                         (initial_world ∅) = Some s
             /\ ssl_trust s = true /\ sess_maximized s = true /\ sess_live s = true)
  /\ (exists s, new_session (getDriverInstance demo_env (demo_config "electron" "clear"))
                            (initial_world ∅) = Some s
                /\ ssl_trust s = false /\ sess_maximized s = false /\ sess_live s = true).
Proof.
  split.
  - apply (named_drivers_trust_and_maximize demo_env (demo_config "firefox" "clear")
             (initial_world ∅)).
    simpl. right. left. reflexivity.
  - apply (named_drivers_trust_and_maximize demo_env (demo_config "electron" "clear")
             (initial_world ∅)).
    reflexivity.
Defined.

(** C9 as the specification words it does not hold for the electron
    identifier: the session its factory creates has no [acceptSslCerts]
    capability and was never maximized. *)
Lemma electron_driver_not_trusting_not_maximized :
  ~ (exists s, new_session (getDriverInstance demo_env (demo_config "electron" "clear"))
                           (initial_world ∅) = Some s
               /\ ssl_trust s = true /\ sess_maximized s = true).
Proof.
  intros (s & Hs & Hssl & Hmax).
  vm_compute in Hs. injection Hs as <-. discriminate Hmax.
Qed.

(** ** Driver dispatch: unknown identifiers and custom driver files *)

Lemma getDriverInstance_default E C w :
  ~ In (browserName C) ["firefox"; "phantomjs"; "electron"; "chrome"] ->
  getDriverInstance E C w =
  bind (let driverFileName := path_resolve E (cwd E) (browserName C) in
        if negb (isFileSync E driverFileName)
        then throw (Error ("Could not find driver file: " +:+ driverFileName))
        else require_and_call E driverFileName)
       (fun driver =>
          bind (modify (set_driver driver)) (fun _ =>
          bind (set_global "driver" driver) (fun _ =>
          bind get (fun w => ret (global_get "driver" (w_globals w)))))) w.
Proof.
  intros Hn. unfold getDriverInstance.
  destruct (String.eqb_spec (browserName C) "firefox") as [e|_];
    [exfalso; apply Hn; rewrite e; simpl; tauto |].
  destruct (String.eqb_spec (browserName C) "phantomjs") as [e|_];
    [exfalso; apply Hn; rewrite e; simpl; tauto |].
  destruct (String.eqb_spec (browserName C) "electron") as [e|_];
    [exfalso; apply Hn; rewrite e; simpl; tauto |].
  destruct (String.eqb_spec (browserName C) "chrome") as [e|_];
    [exfalso; apply Hn; rewrite e; simpl; tauto |].
  reflexivity.
Qed.

(** What requiring and calling a custom driver module does when the
    module builds a session. *)
Lemma require_and_call_builds E file caps mx w :
  require_module E file = CFBuilds caps mx ->
  require_and_call E file w =
  (Normal (VSession (length (w_sessions w))),
   mkWorld (w_driver w) (w_eyes w) (w_globals w)
           (w_sessions w ++ [mkSession caps mx true false])
           (w_trace w ++ EBuild (length (w_sessions w)) ::
              (if mx then [EMaximize (length (w_sessions w))] else []))
           (w_clock w)).
Proof.
  intros Hm. unfold require_and_call. rewrite Hm. destruct mx.
  - unfold bind at 1. rewrite build_run.
    unfold bind, maximize, command, bind, emit, modify, get, ret. simpl.
    rewrite lookup_snoc. simpl. rewrite insert_snoc, <- app_assoc. reflexivity.
  - reflexivity.
Qed.

(** C5: for an identifier outside the four named browsers, a path that is
    not a file makes [getDriverInstance] throw an error that names the
    resolved driver file, and leaves the state as it was.  A path that is
    a file is required and called without arguments: what the module
    throws is thrown on and the state is as it was; the value it returns
    becomes [driver] and [global.driver] and is returned; the session it
    builds is appended to the store, live, with the module's capabilities,
    and its handle becomes [driver] and [global.driver] and is returned. *)
Theorem unknown_driver_throws_custom_driver_is_called (E : Env) (C : Config) (w : World) :
  ~ In (browserName C) ["firefox"; "phantomjs"; "electron"; "chrome"] ->
  let driverFileName := path_resolve E (cwd E) (browserName C) in
  (isFileSync E driverFileName = false ->
   getDriverInstance E C w =
   (Thrown (Error ("Could not find driver file: " +:+ driverFileName)), w))
  /\ (isFileSync E driverFileName = true ->
      getDriverInstance E C w =
      match require_module E driverFileName with
      | CFThrows e => (Thrown e, w)
      | CFReturns v =>
          (Normal v, set_globals (<["driver" := v]> (w_globals w)) (set_driver v w))
      | CFBuilds caps mx =>
          let handle := length (w_sessions w) in
          (Normal (VSession handle),
           mkWorld (VSession handle) (w_eyes w)
                   (<["driver" := VSession handle]> (w_globals w))
                   (w_sessions w ++ [mkSession caps mx true false])
                   (w_trace w ++ EBuild handle :: (if mx then [EMaximize handle] else []))
                   (w_clock w))
      end).
Proof.
  intros Hn driverFileName. rewrite (getDriverInstance_default E C w Hn).
  fold driverFileName. cbv zeta. split; intros Hfile; rewrite Hfile; simpl negb; cbv iota.
  - reflexivity.
  - destruct (require_module E driverFileName) as [e|caps mx|v] eqn:Hreq.
    + unfold bind at 1. unfold require_and_call. rewrite Hreq. reflexivity.
    + rewrite (publish_run _ _ _ _ (require_and_call_builds E _ caps mx w Hreq)).
      reflexivity.
    + apply publish_run. unfold require_and_call. rewrite Hreq. reflexivity.
Qed.

Lemma unknown_driver_throws_custom_driver_is_called_witness :
  getDriverInstance demo_env (demo_config "opera" "clear") (initial_world ∅) =
    (Thrown (Error "Could not find driver file: /home/ci/opera"), initial_world ∅)
  /\ (getDriverInstance demo_env (demo_config "drivers/opera.js" "clear") (initial_world ∅)).1
     = Normal (VSession 0)
  /\ w_sessions
       (getDriverInstance demo_env (demo_config "drivers/opera.js" "clear") (initial_world ∅)).2
     = [mkSession [("browserName", CStr "opera")] false true false].
Proof.
  split.
  - apply (unknown_driver_throws_custom_driver_is_called
             demo_env (demo_config "opera" "clear") (initial_world ∅)).
    + simpl. intros [H | [H | [H | [H | []]]]]; discriminate H.
    + reflexivity.
  - rewrite (proj2 (unknown_driver_throws_custom_driver_is_called
                      demo_env (demo_config "drivers/opera.js" "clear") (initial_world ∅)
                      ltac:(simpl; intros [H | [H | [H | [H | []]]]]; discriminate H))
                   eq_refl).
    split; reflexivity.
Defined.

(** ** createWorld *)

Lemma createWorld_globals_unfold C g :
  createWorld_globals C g =
  <["shared" := js_or (global_get "shared" g) VEmptyObject]>
  (<["page" := js_or (global_get "page" g) VEmptyObject]>
  (<["trace" := VRef "consoleInfo"]>
  (<["assert" := VRef "chai.assert"]>
  (<["expect" := VRef "chai.expect"]>
  (<["until" := VRef "selenium.until"]>
  (<["by" := VRef "selenium.By"]>
  (<["By" := VRef "selenium.By"]>
  (<["selenium" := VRef "selenium"]>
  (<["eyes" := VNull]>
  (if negb (String.eqb (browserTeardownStrategy C) "always")
   then g else <["driver" := VNull]> g)))))))))).
Proof.
  unfold createWorld_globals, runtime. cbn [foldl].
  unfold expose. cbn [fst snd String.eqb Ascii.eqb Bool.eqb andb].
  destruct (negb (String.eqb (browserTeardownStrategy C) "always")); reflexivity.
Qed.



(** ** Wait descriptors: timeout and message *)

Lemma or_default_unspecified dflt : or_default None dflt = dflt.
Proof. reflexivity. Qed.

Lemma or_default_zero dflt : or_default (Some 0%Z) dflt = dflt.
Proof. reflexivity. Qed.

Lemma or_default_given n dflt : n <> 0%Z -> or_default (Some n) dflt = n.
Proof. intros Hn. unfold or_default. apply Z.eqb_neq in Hn. now rewrite Hn. Qed.

(** C7, as the code has it: each of the four helpers uses the argument as
    its timeout when it is a number other than 0, and [DEFAULT_TIMEOUT]
    when it is left out (or is 0); the timeout is positive when the
    argument is positive, and when the argument is left out or 0 and
    [DEFAULT_TIMEOUT] is positive. *)
Theorem wait_timeout_is_argument_or_default (C : Config) (P : Page)
    (elementSelector attributeName attributeValue : string)
    (waitInMilliseconds : option Z) :
  Forall (fun timeout =>
            (waitInMilliseconds = None -> timeout = DEFAULT_TIMEOUT C)
            /\ (waitInMilliseconds = Some 0%Z -> timeout = DEFAULT_TIMEOUT C)
            /\ (forall n, waitInMilliseconds = Some n -> n <> 0%Z -> timeout = n)
            /\ (match waitInMilliseconds with
                | Some n => (0 < n)%Z \/ (n = 0%Z /\ (0 < DEFAULT_TIMEOUT C)%Z)
                | None => (0 < DEFAULT_TIMEOUT C)%Z
                end -> (0 < timeout)%Z))
         (helper_timeouts C P elementSelector attributeName attributeValue
            waitInMilliseconds).
Proof.
  assert (Hone :
    (waitInMilliseconds = None ->
       or_default waitInMilliseconds (DEFAULT_TIMEOUT C) = DEFAULT_TIMEOUT C)
    /\ (waitInMilliseconds = Some 0%Z ->
       or_default waitInMilliseconds (DEFAULT_TIMEOUT C) = DEFAULT_TIMEOUT C)
    /\ (forall n, waitInMilliseconds = Some n -> n <> 0%Z ->
       or_default waitInMilliseconds (DEFAULT_TIMEOUT C) = n)
    /\ (match waitInMilliseconds with
        | Some n => (0 < n)%Z \/ (n = 0%Z /\ (0 < DEFAULT_TIMEOUT C)%Z)
        | None => (0 < DEFAULT_TIMEOUT C)%Z
        end -> (0 < or_default waitInMilliseconds (DEFAULT_TIMEOUT C))%Z)).
  { repeat split.
    - intros ->. apply or_default_unspecified.
    - intros ->. apply or_default_zero.
    - intros n -> Hn. now apply or_default_given.
    - destruct waitInMilliseconds as [n|]; simpl; [| tauto].
      destruct (Z.eqb_spec n 0); lia. }
  unfold helper_timeouts, waitForNewWindows_timeout. simpl wd_timeout.
  repeat (apply List.Forall_cons; [exact Hone |]). apply List.Forall_nil.
Qed.

Lemma wait_timeout_is_argument_or_default_witness :
  helper_timeouts (demo_config "chrome" "clear") demo_page "html" "data-busy" "false" None
    = [10000; 10000; 10000; 10000]%Z
  /\ Forall (fun timeout => (0 < timeout)%Z)
       (helper_timeouts (demo_config "chrome" "clear") demo_page "html" "data-busy" "false"
          (Some 3000%Z)).
Proof.
  split; [reflexivity |].
  eapply Forall_impl;
    [ exact (wait_timeout_is_argument_or_default (demo_config "chrome" "clear") demo_page
               "html" "data-busy" "false" (Some 3000%Z)) |].
  intros timeout (_ & _ & _ & Hpos). apply Hpos. left. lia.
Defined.

(** C7 as the specification words it does not hold for a negative
    argument: it is truthy, so it is the timeout of the descriptor. *)
Lemma negative_argument_is_the_timeout :
  ~ Forall (fun timeout => (0 < timeout)%Z)
      (helper_timeouts (demo_config "chrome" "clear") demo_page "html" "data-busy" "false"
         (Some (-5)%Z)).
Proof.
  intros H. inversion H as [| timeout rest Hpos _]. vm_compute in Hpos. discriminate Hpos.
Qed.

(** ** The timeout message of waitUntilAttributeEquals *)











(** ** waitForNewWindows *)

Lemma polls_before_zero timeout i :
  polls_before (timeout - i) = 0%nat -> (i <? timeout)%Z = false.
Proof.
  unfold polls_before. intros H. apply Z.ltb_ge.
  destruct (Z_lt_le_dec i timeout) as [Hlt|]; [exfalso | assumption].
  assert (1 <= (timeout - i + 999) / 1000)%Z by (apply Z.div_le_lower_bound; lia).
  lia.
Qed.

Lemma polls_before_succ timeout i n :
  polls_before (timeout - i) = S n ->
  (i <? timeout)%Z = true /\ polls_before (timeout - (i + 1000)) = n.
Proof.
  unfold polls_before. intros H. split.
  - apply Z.ltb_lt. destruct (Z_lt_le_dec i timeout) as [|Hle]; [assumption | exfalso].
    assert ((timeout - i + 999) / 1000 <= 0)%Z.
    { apply Z.lt_succ_r. apply Z.div_lt_upper_bound; lia. }
    lia.
  - replace (timeout - (i + 1000) + 999)%Z with ((timeout - i + 999) + (-1) * 1000)%Z by lia.
    rewrite Z.div_add by lia. lia.
Qed.

Lemma polls_before_fuel timeout : (polls_before timeout < S (Z.to_nat timeout))%nat.
Proof.
  unfold polls_before. destruct (Z_lt_le_dec 0 timeout) as [Hpos|Hnp].
  - assert ((timeout + 999) / 1000 <= timeout)%Z.
    { apply Z.lt_succ_r. apply Z.div_lt_upper_bound; lia. }
    lia.
  - assert ((timeout + 999) / 1000 <= 0)%Z.
    { apply Z.lt_succ_r. apply Z.div_lt_upper_bound; lia. }
    lia.
Qed.

Lemma await_getAllWindowHandles_run E h w :
  live h w ->
  await (getAllWindowHandles E h) w =
  (Normal (window_handles E h (w_clock w)),
   set_trace (w_trace w ++ [EGetAllWindowHandles h]) w).
Proof.
  intros Hl. unfold await, getAllWindowHandles, bind.
  rewrite (command_id_run _ _ _ _ Hl). reflexivity.
Qed.

Lemma await_sleep_run h ms w :
  await (sleep h ms) w =
  (Normal tt, set_clock (w_clock w + ms) (set_trace (w_trace w ++ [ESleep h ms]) w)).
Proof. reflexivity. Qed.

(** The loop of the source, started at [i] with enough fuel, is the wait
    of the specification with the polls that are left. *)
Lemma waitForNewWindows_loop_run E h timeout n :
  forall fuel i w,
    global_get "driver" (w_globals w) = VSession h ->
    live h w ->
    polls_before (timeout - i) = n ->
    (n < fuel)%nat ->
    exists w',
      waitForNewWindows_loop E fuel timeout i w =
        (Normal (Some (poll_every_second E h n (w_clock w))), w')
      /\ w_trace w' = w_trace w ++ poll_trace E h n (w_clock w)
      /\ w_globals w' = w_globals w /\ w_sessions w' = w_sessions w
      /\ w_driver w' = w_driver w.
Proof.
  induction n as [|n IH]; intros fuel i w Hd Hl Hn Hfuel.
  - destruct fuel as [|fuel]; [lia |]. simpl.
    rewrite (polls_before_zero _ _ Hn). exists w. simpl.
    rewrite app_nil_r. repeat split; reflexivity.
  - destruct fuel as [|fuel]; [lia |].
    destruct (polls_before_succ _ _ _ Hn) as [Hlt Hrest].
    cbn [waitForNewWindows_loop poll_every_second poll_trace]. rewrite Hlt.
    unfold bind at 1. rewrite (global_driver_run _ _ Hd).
    unfold bind at 1. rewrite (await_getAllWindowHandles_run E _ _ Hl).
    destruct (1 <? length (window_handles E h (w_clock w)))%nat.
    + eexists. split; [reflexivity |]. repeat split; reflexivity.
    + unfold bind at 1. rewrite (global_driver_run h) by exact Hd.
      unfold bind at 1. rewrite await_sleep_run.
      edestruct (IH fuel (i + 1000)%Z) as (w' & Hrun & Htrace & Hg & Hs & Hdrv);
        [| | exact Hrest | lia |].
      3: { eexists. split; [exact Hrun |]. cbn [w_clock set_clock set_trace] in *.
           rewrite Htrace. cbn [w_trace set_clock set_trace].
           rewrite <- !app_assoc. repeat split; assumption. }
      * exact Hd.
      * exact Hl.
Qed.

Lemma polls_before_lt timeout k :
  (k < polls_before timeout)%nat <-> (1000 * Z.of_nat k < timeout)%Z.
Proof.
  unfold polls_before.
  pose proof (Z.div_mod (timeout + 999) 1000 ltac:(lia)) as Hdm.
  pose proof (Z.mod_pos_bound (timeout + 999) 1000 ltac:(lia)) as Hmod.
  split; intros H; lia.
Qed.

Lemma poll_every_second_some E h polls :
  forall now windows,
    poll_every_second E h polls now = Some windows ->
    (1 < length windows)%nat
    /\ exists k, (k < polls)%nat
         /\ windows = window_handles E h (now + 1000 * Z.of_nat k)
         /\ forall j, (j < k)%nat ->
              (length (window_handles E h (now + 1000 * Z.of_nat j)) <= 1)%nat.
Proof.
  induction polls as [|polls IH]; intros now windows Hp; [discriminate |].
  simpl in Hp.
  destruct (Nat.ltb_spec 1 (length (window_handles E h now))) as [Hgt|Hle].
  - injection Hp as <-. split; [exact Hgt |]. exists 0%nat.
    rewrite Z.mul_0_r, Z.add_0_r. repeat split; [lia | intros j Hj; lia].
  - destruct (IH _ _ Hp) as (Hlen & k & Hk & Hw & Hbefore). split; [exact Hlen |].
    exists (S k). split; [lia |]. split.
    + rewrite Hw. f_equal. lia.
    + intros [|j] Hj.
      * rewrite Z.mul_0_r, Z.add_0_r. exact Hle.
      * replace (now + 1000 * Z.of_nat (S j))%Z with (now + 1000 + 1000 * Z.of_nat j)%Z by lia.
        apply Hbefore. lia.
Qed.

Lemma poll_every_second_none E h polls :
  forall now,
    poll_every_second E h polls now = None <->
    forall k, (k < polls)%nat ->
      (length (window_handles E h (now + 1000 * Z.of_nat k)) <= 1)%nat.
Proof.
  induction polls as [|polls IH]; intros now; simpl.
  - split; [intros _ k Hk; lia | reflexivity].
  - destruct (Nat.ltb_spec 1 (length (window_handles E h now))) as [Hgt|Hle].
    + split; [discriminate |]. intros Hall. specialize (Hall 0%nat ltac:(lia)).
      rewrite Z.mul_0_r, Z.add_0_r in Hall. lia.
    + rewrite IH. split; intros Hall k Hk.
      * destruct k as [|k]; [now rewrite Z.mul_0_r, Z.add_0_r |].
        replace (now + 1000 * Z.of_nat (S k))%Z with (now + 1000 + 1000 * Z.of_nat k)%Z by lia.
        apply Hall. lia.
      * replace (now + 1000 + 1000 * Z.of_nat k)%Z with (now + 1000 * Z.of_nat (S k))%Z by lia.
        apply Hall. lia.
Qed.

(** C6: on a live session [waitForNewWindows] always resolves and never
    rejects or runs on: it asks for the window handles at the start and
    then once after each sleep of 1000 ms, as long as the time slept is
    below the timeout.  It resolves with the whole list of the first poll
    that shows more than one window, and with [undefined] when no poll
    before the timeout does. *)
Theorem waitForNewWindows_polls_every_second (E : Env) (C : Config)
    (waitInMilliseconds : option Z) (h : nat) (w : World) :
  global_get "driver" (w_globals w) = VSession h ->
  live h w ->
  let timeout := waitForNewWindows_timeout C waitInMilliseconds in
  let result := poll_every_second E h (polls_before timeout) (w_clock w) in
  exists w',
    waitForNewWindows E C waitInMilliseconds w = (Normal (Resolved (Some result)), w')
    /\ w_trace w' = w_trace w ++ poll_trace E h (polls_before timeout) (w_clock w)
    /\ (forall windows, result = Some windows ->
          (1 < length windows)%nat
          /\ exists k, (1000 * Z.of_nat k < timeout)%Z
               /\ windows = window_handles E h (w_clock w + 1000 * Z.of_nat k)
               /\ forall j, (j < k)%nat ->
                    (length (window_handles E h (w_clock w + 1000 * Z.of_nat j)) <= 1)%nat)
    /\ (result = None <->
        forall k, (1000 * Z.of_nat k < timeout)%Z ->
          (length (window_handles E h (w_clock w + 1000 * Z.of_nat k)) <= 1)%nat).
Proof.
  intros Hd Hl timeout result.
  destruct (waitForNewWindows_loop_run E h timeout (polls_before timeout)
              (S (Z.to_nat timeout)) 0%Z w Hd Hl)
    as (w' & Hrun & Htrace & _); [f_equal; lia | apply polls_before_fuel |].
  exists w'. split; [| split; [exact Htrace | split]].
  - unfold waitForNewWindows, async. fold timeout. rewrite Hrun. reflexivity.
  - intros windows Hres. destruct (poll_every_second_some _ _ _ _ _ Hres)
      as (Hlen & k & Hk & Hw & Hbefore).
    split; [exact Hlen |]. exists k. split; [now apply polls_before_lt |].
    split; assumption.
  - unfold result. rewrite poll_every_second_none.
    split; intros Hall k Hk; apply Hall; now apply polls_before_lt.
Qed.

Lemma waitForNewWindows_polls_every_second_witness :
  (waitForNewWindows demo_env (demo_config "chrome" "clear") (Some 5000%Z)
     (ChromeDriver demo_env (initial_world {["driver" := VSession 0]})).2).1
    = Normal (Resolved (Some (Some ["main"; "popup"])))
  /\ (waitForNewWindows demo_env (demo_config "chrome" "clear") (Some 2000%Z)
        (ChromeDriver demo_env (initial_world {["driver" := VSession 0]})).2).1
    = Normal (Resolved (Some None)).
Proof.
  pose (w := (ChromeDriver demo_env (initial_world {["driver" := VSession 0]})).2).
  assert (Hl : live 0 w) by (eexists; split; reflexivity).
  split.
  - destruct (waitForNewWindows_polls_every_second demo_env (demo_config "chrome" "clear")
                (Some 5000%Z) 0%nat w eq_refl Hl) as (w' & Hrun & _).
    fold w. rewrite Hrun. reflexivity.
  - destruct (waitForNewWindows_polls_every_second demo_env (demo_config "chrome" "clear")
                (Some 2000%Z) 0%nat w eq_refl Hl) as (w' & Hrun & _).
    fold w. rewrite Hrun. reflexivity.
Defined.

(** ** What a hook leaves alone *)

Section Frame.
Context {T : Type} (obs : World -> T).

Lemma preserves_ret {A} (a : A) : preserves obs (ret a).
Proof. intros w. reflexivity. Qed.

Lemma preserves_throw {A} e : preserves obs (@throw A e).
Proof. intros w. reflexivity. Qed.

Lemma preserves_get : preserves obs get.
Proof. intros w. reflexivity. Qed.

Lemma preserves_modify f : (forall w, obs (f w) = obs w) -> preserves obs (modify f).
Proof. intros Hf w. apply Hf. Qed.

Lemma preserves_bind {A B} (m : M A) (k : A -> M B) :
  preserves obs m -> (forall a, preserves obs (k a)) -> preserves obs (bind m k).
Proof.
  intros Hm Hk w. unfold bind. specialize (Hm w).
  destruct (m w) as [[a|e] w1]; simpl in *; [| exact Hm].
  rewrite <- Hm. apply Hk.
Qed.

Lemma preserves_await {A} (m : M (promise A)) : preserves obs m -> preserves obs (await m).
Proof.
  intros Hm. unfold await. apply preserves_bind; [exact Hm |].
  intros [a|e]; [apply preserves_ret | apply preserves_throw].
Qed.

Lemma preserves_async {A} (m : M A) : preserves obs m -> preserves obs (async m).
Proof.
  intros Hm w. unfold async. specialize (Hm w). destruct (m w) as [[a|e] w1]; exact Hm.
Qed.

Lemma preserves_run_hook {A} (m : M (promise A)) :
  preserves obs m -> preserves obs (run_hook m).
Proof.
  intros Hm w. unfold run_hook. specialize (Hm w). destruct (m w) as [[a|e] w1]; exact Hm.
Qed.

Lemma preserves_then {A B} (m : M (promise A)) (f : A -> M (promise B)) :
  preserves obs m -> (forall a, preserves obs (f a)) -> preserves obs (then_ m f).
Proof.
  intros Hm Hf. unfold then_. apply preserves_bind; [exact Hm |].
  intros [a|e]; [| apply preserves_ret].
  intros w. specialize (Hf a w). destruct (f a w) as [[q|e] w1]; exact Hf.
Qed.

Lemma preserves_as_session v : preserves obs (as_session v).
Proof. destruct v; first [apply preserves_ret | apply preserves_throw]. Qed.

Lemma preserves_if {A} (b : bool) (m1 m2 : M A) :
  preserves obs m1 -> preserves obs m2 -> preserves obs (if b then m1 else m2).
Proof. destruct b; auto. Qed.

Lemma preserves_global_driver : preserves obs global_driver.
Proof.
  unfold global_driver. apply preserves_bind; [apply preserves_get | intros w0].
  destruct (w_globals w0 !! "driver"); [apply preserves_as_session | apply preserves_throw].
Qed.
End Frame.

Lemma lifecycle_app t1 t2 : lifecycle (t1 ++ t2) = lifecycle t1 ++ lifecycle t2.
Proof. apply filter_app. Qed.

Lemma lifecycle_snoc_other t e : is_lifecycle e = false -> lifecycle (t ++ [e]) = lifecycle t.
Proof.
  intros He. rewrite lifecycle_app. unfold lifecycle at 2.
  rewrite filter_cons_False by (rewrite He; auto). apply app_nil_r.
Qed.

Lemma teardown_snoc_other t e :
  is_teardown e = false -> filter is_teardown (t ++ [e]) = filter is_teardown t.
Proof.
  intros He. rewrite filter_app.
  rewrite filter_cons_False by (rewrite He; auto). apply app_nil_r.
Qed.

(** A command that is not part of the lifecycle and leaves the session as
    it is changes only the log. *)
Lemma command_id_frame {A} h e (answer : World -> A) :
  is_lifecycle e = false -> preserves lifecycle_state (command h e answer id).
Proof.
  intros He w. unfold command, bind, emit, modify, get, ret. simpl.
  destruct (w_sessions w !! h) as [s|] eqn:Hs; simpl.
  - destruct (sess_live s); simpl; unfold lifecycle_state; simpl;
      rewrite ?(insert_same _ _ _ Hs), (lifecycle_snoc_other _ _ He); reflexivity.
  - unfold lifecycle_state. simpl. now rewrite (lifecycle_snoc_other _ _ He).
Qed.

(** Any command that is not close or quit adds nothing to the teardown log. *)
Lemma command_no_teardown {A} h e (answer : World -> A) effect :
  is_teardown e = false -> preserves teardown_log (command h e answer effect).
Proof.
  intros He w. unfold command, bind, emit, modify, get, ret. simpl.
  destruct (w_sessions w !! h) as [s|]; simpl; [destruct (sess_live s) |]; simpl;
    unfold teardown_log; simpl; now rewrite (teardown_snoc_other _ _ He).
Qed.

Lemma emit_frame e : is_lifecycle e = false -> preserves lifecycle_state (emit e).
Proof.
  intros He w. unfold emit, modify, lifecycle_state. simpl.
  now rewrite (lifecycle_snoc_other _ _ He).
Qed.

Lemma emit_no_teardown e : is_teardown e = false -> preserves teardown_log (emit e).
Proof.
  intros He w. unfold emit, modify, teardown_log. simpl.
  now rewrite (teardown_snoc_other _ _ He).
Qed.

Lemma build_no_teardown caps : preserves teardown_log (build caps).
Proof.
  unfold build. apply preserves_bind; [apply preserves_get | intro w0].
  apply preserves_bind; [apply preserves_modify; intro; reflexivity | intro].
  apply preserves_bind; [apply emit_no_teardown; reflexivity | intro].
  apply preserves_ret.
Qed.

Lemma maximize_no_teardown h : preserves teardown_log (maximize h).
Proof. unfold maximize. apply command_no_teardown. reflexivity. Qed.

(** Goals of the form [preserves obs m], by the structure of [m]. *)
Ltac frame :=
  repeat first
    [ apply build_no_teardown | apply maximize_no_teardown
    | apply command_id_frame; reflexivity
    | apply command_no_teardown; reflexivity
    | apply emit_frame; reflexivity
    | apply emit_no_teardown; reflexivity
    | apply preserves_modify; intro; reflexivity
    | apply preserves_as_session | apply preserves_global_driver
    | apply preserves_ret | apply preserves_throw | apply preserves_get
    | apply preserves_then | apply preserves_async
    | apply preserves_await | apply preserves_run_hook | apply preserves_if
    | apply preserves_bind
    | intro ].

(** ** The after hook *)

Lemma clearCookiesAndStorages_frame : preserves lifecycle_state clearCookiesAndStorages.
Proof.
  unfold clearCookiesAndStorages, clearCookies, clearStorages,
    deleteAllCookies, executeScript_clearStorages.
  frame.
Qed.

Lemma teardownBrowser_frame : preserves lifecycle_state teardownBrowser.
Proof.
  unfold teardownBrowser. apply preserves_async. apply preserves_bind;
    [apply clearCookiesAndStorages_frame | frame].
Qed.

Lemma After_frame E C scenario : preserves lifecycle_state (After E C scenario).
Proof.
  unfold After. apply preserves_if; [| apply teardownBrowser_frame].
  apply preserves_then.
  - unfold takeScreenshot. frame.
  - intros screenShot. apply preserves_bind; [apply emit_frame; reflexivity |].
    intros _. apply preserves_bind; [apply clearCookiesAndStorages_frame |].
    intros _. apply preserves_then; [apply teardownBrowser_frame |].
    intros _. unfold abort_eyes. frame.
Qed.

Lemma clearCookiesAndStorages_run h w :
  global_get "driver" (w_globals w) = VSession h ->
  live h w ->
  clearCookiesAndStorages w =
  (Normal (Resolved tt),
   set_trace (w_trace w ++ [EDeleteAllCookies h; EClearStorages h]) w).
Proof.
  intros Hd Hl. unfold clearCookiesAndStorages, clearCookies, clearStorages.
  unfold bind at 1 2. rewrite (global_driver_run h w Hd).
  unfold deleteAllCookies. rewrite (command_id_run _ _ _ _ Hl).
  unfold bind at 1 2. rewrite (global_driver_run h) by exact Hd.
  unfold executeScript_clearStorages. rewrite command_id_run by exact Hl.
  unfold ret, set_trace. simpl. rewrite <- app_assoc. reflexivity.
Qed.

Lemma teardownBrowser_run h w :
  global_get "driver" (w_globals w) = VSession h ->
  live h w ->
  teardownBrowser w =
  (Normal (Resolved tt),
   set_trace (w_trace w ++ [EDeleteAllCookies h; EClearStorages h]) w).
Proof.
  intros Hd Hl. unfold teardownBrowser, async, bind.
  rewrite (clearCookiesAndStorages_run h w Hd Hl). reflexivity.
Qed.

Lemma After_failed_run E C scenario h w :
  global_get "driver" (w_globals w) = VSession h ->
  live h w ->
  isFailed scenario = true ->
  noScreenshot C = false ->
  After E C scenario w =
  (Normal (Resolved tt), set_trace (w_trace w ++ failure_events E scenario h w) w).
Proof.
  intros Hd Hl Hf Hn. unfold After. rewrite Hf, Hn. cbn [andb negb].
  unfold then_ at 1. unfold bind at 1. unfold bind at 1. unfold get at 1. cbv beta iota.
  rewrite Hd. cbn [as_session]. unfold bind at 1, ret at 1.
  unfold takeScreenshot. rewrite (command_id_run _ _ _ _ Hl).
  unfold bind at 1, emit, modify.
  unfold bind at 1. rewrite (clearCookiesAndStorages_run h) by (try exact Hd; exact Hl).
  unfold then_, bind at 1. rewrite (teardownBrowser_run h) by (try exact Hd; exact Hl).
  unfold abort_eyes, bind, get, emit, modify, ret, failure_events. simpl.
  destruct (truthy (w_eyes w)); simpl; unfold set_trace; simpl;
    rewrite <- !app_assoc; reflexivity.
Qed.

Lemma After_quiet_run E C scenario h w :
  global_get "driver" (w_globals w) = VSession h ->
  live h w ->
  isFailed scenario && negb (noScreenshot C) = false ->
  After E C scenario w =
  (Normal (Resolved tt),
   set_trace (w_trace w ++ [EDeleteAllCookies h; EClearStorages h]) w).
Proof.
  intros Hd Hl Hq. unfold After. rewrite Hq. apply teardownBrowser_run; assumption.
Qed.

(** C4: when a scenario has failed and screenshots are not disabled, the
    after hook first takes a screenshot of the live session and attaches
    it to the scenario, and only then clears cookies and storage; when
    the scenario has passed it takes no screenshot and only clears cookies
    and storage.  After a failure the clearing is sent twice, once by the
    hook and once by [teardownBrowser].  In both cases the hook resolves, sends neither close nor
    quit, and leaves the session live. *)
Theorem After_screenshot_before_hygiene (E : Env) (C : Config) (scenario : Scenario)
    (h : nat) (w : World) :
  global_get "driver" (w_globals w) = VSession h ->
  live h w ->
  exists w',
    After E C scenario w = (Normal (Resolved tt), w')
    /\ live h w'
    /\ teardown_log w' = teardown_log w
    /\ (isFailed scenario = true -> noScreenshot C = false ->
        w_trace w' =
          w_trace w
          ++ [ETakeScreenshot h;
              EAttach (sc_name scenario) (screenshot_png E h (w_clock w)) "image/png";
              EDeleteAllCookies h; EClearStorages h;
              EDeleteAllCookies h; EClearStorages h]
          ++ (if truthy (w_eyes w) then [EAbortEyes] else []))
    /\ (isFailed scenario = false ->
        w_trace w' = w_trace w ++ [EDeleteAllCookies h; EClearStorages h]).
Proof.
  intros Hd Hl.
  destruct (isFailed scenario && negb (noScreenshot C)) eqn:Hb.
  - apply andb_true_iff in Hb as [Hf Hn]. apply negb_true_iff in Hn.
    eexists. split; [apply (After_failed_run E C scenario h w Hd Hl Hf Hn) |].
    split; [exact Hl |]. split.
    + unfold teardown_log, failure_events. simpl w_trace. rewrite filter_app.
      destruct (truthy (w_eyes w)); simpl; apply app_nil_r.
    + split; [| intros Hp; congruence]. intros _ _. reflexivity.
  - eexists. split; [apply (After_quiet_run E C scenario h w Hd Hl Hb) |].
    split; [exact Hl |]. split.
    + unfold teardown_log. simpl w_trace. rewrite filter_app. apply app_nil_r.
    + split; [| reflexivity]. intros Hf Hn. rewrite Hf, Hn in Hb. discriminate.
Qed.

Lemma After_screenshot_before_hygiene_witness :
  let w := (BeforeScenario demo_env (demo_config "chrome" "clear") (initial_world ∅)).2 in
  w_trace (After demo_env (demo_config "chrome" "clear") (mkScenario "login" true) w).2 =
    [ EBuild 0; EMaximize 0; ETakeScreenshot 0;
      EAttach "login" "iVBORw0KGgo=" "image/png";
      EDeleteAllCookies 0; EClearStorages 0; EDeleteAllCookies 0; EClearStorages 0 ]
  /\ w_trace (After demo_env (demo_config "chrome" "clear") (mkScenario "login" false) w).2 =
    [ EBuild 0; EMaximize 0; EDeleteAllCookies 0; EClearStorages 0 ].
Proof.
  intros w.
  assert (Hl : live 0 w) by (eexists; split; reflexivity).
  split.
  - destruct (After_screenshot_before_hygiene demo_env (demo_config "chrome" "clear")
                (mkScenario "login" true) 0%nat w eq_refl Hl)
      as (w' & Hrun & _ & _ & Hfailed & _).
    rewrite Hrun. simpl snd. rewrite (Hfailed eq_refl eq_refl). reflexivity.
  - destruct (After_screenshot_before_hygiene demo_env (demo_config "chrome" "clear")
                (mkScenario "login" false) 0%nat w eq_refl Hl)
      as (w' & Hrun & _ & _ & _ & Hpassed).
    rewrite Hrun. simpl snd. rewrite (Hpassed eq_refl). reflexivity.
Defined.

(** ** Final teardown *)

Lemma live_lookup h w s :
  w_sessions w !! h = Some s -> sess_live s = true ->
  sess_window_open s = true /\ sess_quit s = false.
Proof.
  unfold sess_live. intros _ Hl. apply andb_true_iff in Hl as [Ho Hq].
  apply negb_true_iff in Hq. split; assumption.
Qed.

(** [closeBrowser] on the live session of the module variable [driver]:
    close, then quit unless the browser is firefox. *)
Lemma closeBrowser_run C h s w :
  w_driver w = VSession h ->
  w_sessions w !! h = Some s ->
  sess_live s = true ->
  closeBrowser C w =
  (Normal (Resolved tt),
   mkWorld (w_driver w) (w_eyes w) (w_globals w)
     (<[h := mkSession (sess_caps s) (sess_maximized s) false
               (negb (String.eqb (browserName C) "firefox"))]> (w_sessions w))
     (w_trace w ++ EClose h ::
        (if String.eqb (browserName C) "firefox" then [] else [EQuit h]))
     (w_clock w)).
Proof.
  intros Hd Hs Hl. destruct (live_lookup h w s Hs Hl) as [Ho Hq].
  pose proof (lookup_lt_Some _ _ _ Hs) as Hlt.
  unfold closeBrowser, then_. unfold bind at 1. unfold bind at 1. unfold get at 1.
  cbv beta iota. rewrite Hd. cbn [as_session]. unfold bind at 1, ret at 1.
  unfold close, command. unfold bind, emit, modify, get, ret. simpl.
  rewrite Hs, Hl. simpl.
  destruct (String.eqb (browserName C) "firefox"); simpl.
  - rewrite Hq. unfold set_sessions, set_trace. simpl. rewrite Hd. reflexivity.
  - unfold quit, bind, emit, modify, get, ret. simpl. rewrite Hd. simpl.
    rewrite list_lookup_insert_eq by exact Hlt. simpl. rewrite Hq.
    unfold set_sessions, set_trace. simpl.
    rewrite list_insert_insert_eq, <- app_assoc, Hd. reflexivity.
Qed.

Lemma teardown_of_lifecycle t : filter is_teardown (lifecycle t) = filter is_teardown t.
Proof.
  unfold lifecycle. induction t as [|e t IH]; [reflexivity |].
  destruct e; repeat (rewrite filter_cons; simpl); rewrite ?IH; reflexivity.
Qed.

(** The report step depends on the files only: on any state it completes
    as it does on the initial one, and adds the same events to the log. *)
Lemma generate_reports_run E C w :
  generate_reports E C w =
  (report_result E C, set_trace (w_trace w ++ report_events E C) w).
Proof.
  unfold report_result, report_events, generate_reports.
  destruct (negb (String.eqb (reportsPath C) "") && existsSync E (reportsPath C)).
  - unfold bind, emit, modify, external_call, external_value, ret, throw, set_trace.
    cbn [w_trace initial_world fst snd app].
    destruct (reporter_generate E _ _) as [e|]; cbn [fst snd w_trace];
      [destruct w; reflexivity |].
    destruct (readFileSync E _) as [e|reportRaw]; cbn [fst snd w_trace];
      [destruct w; reflexivity |].
    destruct (cucumberJunit E _) as [e|xmlReport]; cbn [fst snd w_trace];
      [destruct w; reflexivity |].
    destruct (writeFileSync E _ _) as [e|]; cbn [fst snd w_trace];
      destruct w; cbn; rewrite <- ?app_assoc; reflexivity.
  - unfold ret, set_trace. cbn [fst snd w_trace initial_world]. rewrite app_nil_r.
    now destruct w.
Qed.

(** The report step logs the two files it writes, and nothing else. *)
Lemma report_events_no_lifecycle E C : lifecycle (report_events E C) = [].
Proof.
  unfold report_events, generate_reports.
  destruct (negb (String.eqb (reportsPath C) "") && existsSync E (reportsPath C));
    [| reflexivity].
  unfold bind, emit, modify, external_call, external_value, ret, throw, set_trace.
  cbn [w_trace initial_world fst snd app].
  destruct (reporter_generate E _ _) as [e|]; [reflexivity |].
  destruct (readFileSync E _) as [e|reportRaw]; [reflexivity |].
  destruct (cucumberJunit E _) as [e|xmlReport]; [reflexivity |].
  destruct (writeFileSync E _ _) as [e|]; reflexivity.
Qed.

Lemma report_events_no_teardown E C : filter is_teardown (report_events E C) = [].
Proof.
  rewrite <- teardown_of_lifecycle, report_events_no_lifecycle. reflexivity.
Qed.

(** A report step that throws ends the handler there: the error leaves
    [AfterFeatures] before the teardown and before [done]. *)
Lemma AfterFeatures_report_throws E C e w :
  report_result E C = Thrown e ->
  AfterFeatures E C w = (Thrown e, set_trace (w_trace w ++ report_events E C) w).
Proof.
  intros Hr. unfold AfterFeatures. unfold bind at 1.
  rewrite generate_reports_run, Hr. reflexivity.
Qed.

Lemma AfterFeatures_run E C h s w :
  report_result E C = Normal tt ->
  w_driver w = VSession h ->
  w_sessions w !! h = Some s ->
  sess_live s = true ->
  AfterFeatures E C w =
  (Normal tt,
   mkWorld (w_driver w) (w_eyes w) (w_globals w)
     (if String.eqb (browserTeardownStrategy C) "always" then w_sessions w
      else <[h := mkSession (sess_caps s) (sess_maximized s) false
                    (negb (String.eqb (browserName C) "firefox"))]> (w_sessions w))
     (w_trace w ++ report_events E C ++ final_teardown C h ++ [EDone])
     (w_clock w)).
Proof.
  intros Hr Hd Hs Hl. unfold AfterFeatures, final_teardown.
  unfold bind at 1. rewrite generate_reports_run, Hr.
  destruct (String.eqb (browserTeardownStrategy C) "always"); cbn [negb].
  - unfold bind, emit, modify, ret, set_trace. simpl.
    rewrite <- !app_assoc. reflexivity.
  - unfold bind at 1. unfold then_. unfold bind at 1.
    rewrite (closeBrowser_run C h s) by (try exact Hd; try exact Hs; exact Hl).
    unfold bind, emit, modify, ret, set_trace. simpl.
    rewrite <- ?app_assoc. simpl. rewrite <- ?app_assoc. reflexivity.
Qed.

(** *** Hooks that never close or quit *)

Lemma createWorld_no_teardown C : preserves teardown_log (createWorld C).
Proof. unfold createWorld. frame. Qed.

Lemma require_and_call_no_teardown E file : preserves teardown_log (require_and_call E file).
Proof. unfold require_and_call. destruct (require_module E file); frame. Qed.

Lemma getDriverInstance_no_teardown E C : preserves teardown_log (getDriverInstance E C).
Proof.
  unfold getDriverInstance. apply preserves_bind.
  - repeat apply preserves_if.
    + unfold FireFoxDriver. frame.
    + unfold PhantomJSDriver. frame.
    + unfold ElectronDriver. frame.
    + unfold ChromeDriver. frame.
    + apply preserves_throw.
    + apply require_and_call_no_teardown.
  - intro. unfold set_global. frame.
Qed.

Lemma BeforeScenario_no_teardown E C : preserves teardown_log (BeforeScenario E C).
Proof.
  unfold BeforeScenario. apply preserves_bind; [apply preserves_get | intro w0].
  apply preserves_bind.
  - apply preserves_if; [apply getDriverInstance_no_teardown | apply preserves_ret].
  - intro. unfold set_global. frame.
Qed.

Lemma lifecycle_state_teardown {A} (m : M A) :
  preserves lifecycle_state m -> preserves teardown_log m.
Proof.
  intros Hm w. specialize (Hm w). unfold lifecycle_state in Hm. unfold teardown_log.
  injection Hm as _ _ _ _ Hlife.
  rewrite <- teardown_of_lifecycle, Hlife. apply teardown_of_lifecycle.
Qed.

Lemma After_no_teardown E C scenario : preserves teardown_log (After E C scenario).
Proof. apply lifecycle_state_teardown, After_frame. Qed.

Lemma teardown_of_AfterFeatures E C h t :
  filter is_teardown (t ++ report_events E C ++ final_teardown C h ++ [EDone]) =
  filter is_teardown t ++ final_teardown C h.
Proof.
  rewrite !filter_app. f_equal.
  pose proof (report_events_no_teardown E C) as Hr.
  assert (Hf : filter is_teardown (final_teardown C h) = final_teardown C h).
  { unfold final_teardown.
    destruct (String.eqb (browserTeardownStrategy C) "always"); [reflexivity |].
    now destruct (String.eqb (browserName C) "firefox"). }
  rewrite Hr, Hf. simpl. apply app_nil_r.
Qed.

Lemma app_changes {A} (l extra : list A) : l ++ extra <> l <-> extra <> [].
Proof.
  split.
  - intros Hne ->. apply Hne, app_nil_r.
  - intros Hne Heq. apply Hne. apply (f_equal length) in Heq.
    rewrite length_app in Heq. destruct extra; [reflexivity | simpl in Heq; lia].
Qed.

(** C2, as the code has it: provided its report step completes,
    [AfterFeatures] closes the session and then quits it when the teardown
    strategy is not ['always'], and sends neither command when it is; the
    quit is left out exactly when the browser is ['firefox'].  When the
    report step throws, the error leaves the handler before the teardown:
    nothing is closed or quit whatever the strategy is, and every session
    is as it was.  No other hook ([createWorld], the before-scenario
    handler, the after hook) ever sends a close or a quit. *)
Theorem final_teardown_only_in_AfterFeatures (E : Env) (C : Config)
    (h : nat) (s : Session) (w : World) :
  w_driver w = VSession h ->
  w_sessions w !! h = Some s ->
  sess_live s = true ->
  (report_result E C = Normal tt ->
   exists w',
     AfterFeatures E C w = (Normal tt, w')
     /\ teardown_log w' =
          teardown_log w ++
          (if String.eqb (browserTeardownStrategy C) "always" then []
           else EClose h :: (if String.eqb (browserName C) "firefox" then [] else [EQuit h]))
     /\ (teardown_log w' <> teardown_log w <-> browserTeardownStrategy C <> "always")
     /\ (In (EQuit h) (teardown_log w') <->
         In (EQuit h) (teardown_log w)
         \/ (browserTeardownStrategy C <> "always" /\ browserName C <> "firefox")))
  /\ (forall e, report_result E C = Thrown e ->
      exists w',
        AfterFeatures E C w = (Thrown e, w')
        /\ teardown_log w' = teardown_log w
        /\ w_sessions w' = w_sessions w
        /\ w_trace w' = w_trace w ++ report_events E C)
  /\ preserves teardown_log (createWorld C)
  /\ preserves teardown_log (BeforeScenario E C)
  /\ (forall scenario, preserves teardown_log (After E C scenario)).
Proof.
  intros Hd Hs Hl. split; [| split; [| split; [| split]]].
  - intros Hr. eexists. split; [apply (AfterFeatures_run E C h s w Hr Hd Hs Hl) |].
    unfold teardown_log at 1 3 5. cbn [w_trace]. rewrite teardown_of_AfterFeatures.
    fold (teardown_log w). unfold final_teardown.
    split; [reflexivity |]. split.
    + rewrite app_changes.
      destruct (String.eqb_spec (browserTeardownStrategy C) "always") as [->|Hne].
      * split; intros H; exfalso; apply H; reflexivity.
      * split; [intros _; exact Hne | intros _; discriminate].
    + rewrite in_app_iff.
      destruct (String.eqb_spec (browserTeardownStrategy C) "always") as [Ha|Ha];
        destruct (String.eqb_spec (browserName C) "firefox") as [Hf|Hf]; simpl;
        split; intros H; try tauto.
      destruct H as [H | [[=] | []]]. now left.
  - intros e Hr. eexists. split; [apply (AfterFeatures_report_throws E C e w Hr) |].
    split; [| split; reflexivity].
    unfold teardown_log. cbn [w_trace set_trace].
    rewrite filter_app, report_events_no_teardown. apply app_nil_r.
  - apply createWorld_no_teardown.
  - apply BeforeScenario_no_teardown.
  - intros scenario. apply After_no_teardown.
Qed.

Lemma final_teardown_only_in_AfterFeatures_witness :
  let w := (BeforeScenario demo_env (demo_config "chrome" "clear") (initial_world ∅)).2 in
  teardown_log (AfterFeatures demo_env (demo_config "chrome" "clear") w).2 = [EClose 0; EQuit 0]
  /\ teardown_log (AfterFeatures demo_env (demo_config "firefox" "clear") w).2 = [EClose 0]
  /\ teardown_log (AfterFeatures demo_env (demo_config "chrome" "always") w).2 = []
  /\ teardown_log (AfterFeatures reports_env (reports_config "chrome" "clear") w).2 = [].
Proof.
  intros w.
  destruct (proj1 (final_teardown_only_in_AfterFeatures demo_env (demo_config "chrome" "clear")
              0%nat (mkSession (chrome_capabilities demo_env) true true false) w
              eq_refl eq_refl eq_refl) eq_refl) as (w1 & Hrun1 & Hlog1 & _).
  destruct (proj1 (final_teardown_only_in_AfterFeatures demo_env (demo_config "firefox" "clear")
              0%nat (mkSession (chrome_capabilities demo_env) true true false) w
              eq_refl eq_refl eq_refl) eq_refl) as (w2 & Hrun2 & Hlog2 & _).
  destruct (proj1 (final_teardown_only_in_AfterFeatures demo_env (demo_config "chrome" "always")
              0%nat (mkSession (chrome_capabilities demo_env) true true false) w
              eq_refl eq_refl eq_refl) eq_refl) as (w3 & Hrun3 & Hlog3 & _).
  destruct (proj1 (proj2 (final_teardown_only_in_AfterFeatures reports_env
              (reports_config "chrome" "clear")
              0%nat (mkSession (chrome_capabilities demo_env) true true false) w
              eq_refl eq_refl eq_refl)) _ eq_refl) as (w4 & Hrun4 & Hlog4 & _).
  rewrite Hrun1, Hrun2, Hrun3, Hrun4. simpl snd. rewrite Hlog1, Hlog2, Hlog3, Hlog4.
  repeat split; reflexivity.
Defined.

(** C2 as the specification words it does not hold: with a strategy other
    than ['always'], a reports directory on disk and no
    [cucumber-report.json] in it, [AfterFeatures] ends with the error of
    [fs.readFileSync]; the live session is sent neither close nor quit and
    is still live, and [done] is not called. *)
Lemma report_failure_skips_final_teardown :
  let C := reports_config "chrome" "clear" in
  let w := (BeforeScenario reports_env C (initial_world ∅)).2 in
  let w' := (AfterFeatures reports_env C w).2 in
  browserTeardownStrategy C <> "always"
  /\ w_driver w = VSession 0 /\ live 0 w
  /\ (AfterFeatures reports_env C w).1 =
       Thrown (Error "ENOENT: no such file or directory, open /home/ci/reports/cucumber-report.json")
  /\ teardown_log w' = [] /\ live 0 w' /\ ~ In EDone (w_trace w').
Proof.
  intros C w w'. split; [discriminate |]. split; [reflexivity |].
  split; [eexists; split; reflexivity |]. split; [reflexivity |].
  split; [reflexivity |]. split; [eexists; split; reflexivity |].
  vm_compute. intros H. repeat (destruct H as [H | H]; [discriminate H |]). exact H.
Qed.

(** ** A failed scenario does not end the session *)

(** C3: the after hook of a failed scenario does not destroy the session.
    With the chrome browser, the strategy ['clear'] and one failed scenario,
    the hook resolves after the screenshot, the attachment and the clearing
    of cookies and storage; it sends neither close nor quit, and the session
    that was live before the hook is live after it.  The comment above the
    hook says that it always closes the browser; the call of
    [closeBrowser] in [teardownBrowser] is commented out. *)
Theorem failed_scenario_leaves_session_open :
  let C := demo_config "chrome" "clear" in
  let w := (BeforeScenario demo_env C (initial_world ∅)).2 in
  let w1 := (After demo_env C (mkScenario "login" true) w).2 in
  browserTeardownStrategy C <> "always"
  /\ live 0 w
  /\ (After demo_env C (mkScenario "login" true) w).1 = Normal (Resolved tt)
  /\ live 0 w1 /\ w_sessions w1 = w_sessions w
  /\ ~ In (EClose 0) (w_trace w1) /\ ~ In (EQuit 0) (w_trace w1)
  /\ teardown_log w1 = []
  /\ filter is_hygiene (w_trace w1) =
       [EDeleteAllCookies 0; EClearStorages 0; EDeleteAllCookies 0; EClearStorages 0].
Proof.
  intros C w w1. split; [discriminate |]. split; [eexists; split; reflexivity |].
  split; [reflexivity |]. split; [eexists; split; reflexivity |].
  split; [reflexivity |]. split; [| split; [| split; reflexivity]].
  - vm_compute. intros H. repeat (destruct H as [H | H]; [discriminate H |]). exact H.
  - vm_compute. intros H. repeat (destruct H as [H | H]; [discriminate H |]). exact H.
Qed.

(** ** One session for the whole run *)

(** For such an identifier [getDriverInstance] appends one live session to
    the store, makes it [driver] and [global.driver], and logs its build
    (and at most a maximize). *)
Lemma getDriverInstance_creates E C w :
  provides_session E C = true ->
  exists s events,
    getDriverInstance E C w =
    (Normal (VSession (length (w_sessions w))),
     mkWorld (VSession (length (w_sessions w))) (w_eyes w)
             (<["driver" := VSession (length (w_sessions w))]> (w_globals w))
             (w_sessions w ++ [s])
             (w_trace w ++ EBuild (length (w_sessions w)) :: events)
             (w_clock w))
    /\ sess_live s = true /\ lifecycle events = [].
Proof.
  unfold provides_session, getDriverInstance. intros Hp.
  destruct (String.eqb (browserName C) "firefox").
  { exists (mkSession (firefox_capabilities E) true true false), [EMaximize (length (w_sessions w))].
    split; [| split; reflexivity].
    rewrite (publish_run (FireFoxDriver E) _ _ _ (build_maximize_run (firefox_capabilities E) w)).
    reflexivity. }
  destruct (String.eqb (browserName C) "phantomjs").
  { exists (mkSession (phantomjs_capabilities E) true true false), [EMaximize (length (w_sessions w))].
    split; [| split; reflexivity].
    rewrite (publish_run (PhantomJSDriver E) _ _ _ (build_maximize_run (phantomjs_capabilities E) w)).
    reflexivity. }
  destruct (String.eqb (browserName C) "electron").
  { exists (mkSession (electron_capabilities E) false true false), [].
    split; [| split; reflexivity].
    rewrite (publish_run (ElectronDriver E) _ _ _ (ElectronDriver_run E w)). reflexivity. }
  destruct (String.eqb (browserName C) "chrome").
  { exists (mkSession (chrome_capabilities E) true true false), [EMaximize (length (w_sessions w))].
    split; [| split; reflexivity].
    rewrite (publish_run (ChromeDriver E) _ _ _ (build_maximize_run (chrome_capabilities E) w)).
    reflexivity. }
  cbv zeta in *. apply andb_true_iff in Hp as [Hfile Hmod]. rewrite Hfile. cbn [negb].
  destruct (require_module E (path_resolve E (cwd E) (browserName C)))
    as [e|caps mx|v] eqn:Hreq; try discriminate Hmod.
  exists (mkSession caps mx true false),
         (if mx then [EMaximize (length (w_sessions w))] else []).
  split; [| split; [reflexivity | now destruct mx]].
  rewrite (publish_run _ _ _ _ (require_and_call_builds E _ caps mx w Hreq)). reflexivity.
Qed.

Lemma lifecycle_build h t : lifecycle (EBuild h :: t) = EBuild h :: lifecycle t.
Proof. unfold lifecycle. now rewrite filter_cons. Qed.

Lemma lifecycle_of_hook_events E scenario h w :
  lifecycle (failure_events E scenario h w) = []
  /\ lifecycle [EDeleteAllCookies h; EClearStorages h] = [].
Proof. unfold failure_events. now destruct (truthy (w_eyes w)). Qed.

(** What the after hook does when [global.driver] is a live session. *)
Lemma After_run E C scenario h w :
  global_get "driver" (w_globals w) = VSession h ->
  live h w ->
  exists events,
    After E C scenario w = (Normal (Resolved tt), set_trace (w_trace w ++ events) w)
    /\ lifecycle events = [].
Proof.
  intros Hd Hl. destruct (isFailed scenario && negb (noScreenshot C)) eqn:Hb.
  - apply andb_true_iff in Hb as [Hf Hn]. apply negb_true_iff in Hn.
    exists (failure_events E scenario h w).
    split; [now apply After_failed_run | apply lifecycle_of_hook_events].
  - exists [EDeleteAllCookies h; EClearStorages h].
    split; [now apply After_quiet_run | reflexivity].
Qed.




Lemma lifecycle_of_AfterFeatures E C h t :
  lifecycle (t ++ report_events E C ++ final_teardown C h ++ [EDone]) =
  lifecycle t ++ final_teardown C h.
Proof.
  rewrite !lifecycle_app. f_equal.
  pose proof (report_events_no_lifecycle E C) as Hr.
  assert (Hf : lifecycle (final_teardown C h) = final_teardown C h).
  { unfold final_teardown.
    destruct (String.eqb (browserTeardownStrategy C) "always"); [reflexivity |].
    now destruct (String.eqb (browserName C) "firefox"). }
  rewrite Hr, Hf. simpl. apply app_nil_r.
Qed.




(** * Further properties of the hooks *)

(** ** Commands on a session that is gone *)

Lemma command_dead {A} h e (answer : World -> A) effect w :
  ~ live h w ->
  command h e answer effect w =
  (Normal (Rejected (WebDriverError "no such session")),
   set_trace (w_trace w ++ [e]) w).
Proof.
  intros Hdead. unfold command, bind, emit, modify, get, ret. simpl.
  destruct (w_sessions w !! h) as [s|] eqn:Hs; [| reflexivity].
  destruct (sess_live s) eqn:Hl; [| reflexivity].
  exfalso. apply Hdead. exists s. split; assumption.
Qed.

Lemma live_dec h w : {live h w} + {~ live h w}.
Proof.
  destruct (w_sessions w !! h) as [s|] eqn:Hs.
  - destruct (sess_live s) eqn:Hl.
    + left. exists s. split; assumption.
    + right. intros (s' & Hs' & Hl'). congruence.
  - right. intros (s' & Hs' & _). congruence.
Qed.

Lemma clearCookiesAndStorages_dead h w :
  global_get "driver" (w_globals w) = VSession h ->
  ~ live h w ->
  clearCookiesAndStorages w =
  (Normal (Rejected (WebDriverError "no such session")),
   set_trace (w_trace w ++ [EDeleteAllCookies h; EClearStorages h]) w).
Proof.
  intros Hd Hdead. unfold clearCookiesAndStorages, clearCookies, clearStorages.
  unfold bind at 1 2. rewrite (global_driver_run h w Hd).
  unfold deleteAllCookies. rewrite (command_dead _ _ _ _ _ Hdead).
  unfold bind at 1 2. rewrite (global_driver_run h) by exact Hd.
  unfold executeScript_clearStorages. rewrite command_dead by exact Hdead.
  unfold ret, set_trace. simpl. rewrite <- app_assoc. reflexivity.
Qed.

(** X1: [clearCookiesAndStorages] sends both commands, cookies first, as
    soon as it is called: the storage script does not wait for the cookies
    to be deleted and is sent even when that fails.  The promise returned
    is the one of the cookies: it resolves exactly when the session is
    live. *)
Theorem clearCookiesAndStorages_sends_both (h : nat) (w : World) :
  global_get "driver" (w_globals w) = VSession h ->
  exists p,
    clearCookiesAndStorages w =
      (Normal p, set_trace (w_trace w ++ [EDeleteAllCookies h; EClearStorages h]) w)
    /\ (p = Resolved tt <-> live h w).
Proof.
  intros Hd. destruct (live_dec h w) as [Hl|Hdead].
  - exists (Resolved tt). split; [now apply clearCookiesAndStorages_run |].
    split; [intros _; exact Hl | reflexivity].
  - exists (Rejected (WebDriverError "no such session")).
    split; [now apply clearCookiesAndStorages_dead |].
    split; [discriminate | intros Hl; contradiction].
Qed.

Lemma clearCookiesAndStorages_sends_both_witness :
  let w := (BeforeScenario demo_env (demo_config "chrome" "clear") (initial_world ∅)).2 in
  w_trace (clearCookiesAndStorages w).2 =
    [EBuild 0; EMaximize 0; EDeleteAllCookies 0; EClearStorages 0].
Proof.
  intros w.
  destruct (clearCookiesAndStorages_sends_both 0%nat w eq_refl) as (p & Hrun & _).
  rewrite Hrun. reflexivity.
Defined.

(** ** The after hook when the session is gone or was never published *)

(** X2: when [global.driver] is a session that no longer answers, the
    after hook of a failed scenario (screenshots on) is rejected by the
    screenshot command: nothing is attached and no cookie or storage is
    cleared.  In every other case the hook still resolves, although both
    clearing commands it sends are rejected. *)
Theorem After_on_dead_session (E : Env) (C : Config) (scenario : Scenario)
    (h : nat) (w : World) :
  global_get "driver" (w_globals w) = VSession h ->
  ~ live h w ->
  After E C scenario w =
  if isFailed scenario && negb (noScreenshot C)
  then (Normal (Rejected (WebDriverError "no such session")),
        set_trace (w_trace w ++ [ETakeScreenshot h]) w)
  else (Normal (Resolved tt),
        set_trace (w_trace w ++ [EDeleteAllCookies h; EClearStorages h]) w).
Proof.
  intros Hd Hdead. unfold After.
  destruct (isFailed scenario && negb (noScreenshot C)).
  - unfold then_ at 1. unfold bind at 1. unfold bind at 1. unfold get at 1.
    cbv beta iota. rewrite Hd. cbn [as_session]. unfold bind at 1, ret at 1.
    unfold takeScreenshot. rewrite (command_dead _ _ _ _ _ Hdead). reflexivity.
  - unfold teardownBrowser, async, bind.
    rewrite (clearCookiesAndStorages_dead h w Hd Hdead). reflexivity.
Qed.

Lemma After_on_dead_session_witness :
  let C := demo_config "chrome" "clear" in
  let w := (AfterFeatures demo_env C (BeforeScenario demo_env C (initial_world ∅)).2).2 in
  (After demo_env C (mkScenario "late" true) w).1
    = Normal (Rejected (WebDriverError "no such session"))
  /\ (After demo_env C (mkScenario "late" false) w).1 = Normal (Resolved tt).
Proof.
  intros C w.
  assert (Hdead : ~ live 0 w).
  { intros (s & Hs & Hl). vm_compute in Hs. injection Hs as <-. discriminate Hl. }
  split.
  - rewrite (After_on_dead_session demo_env C (mkScenario "late" true) 0%nat w eq_refl Hdead).
    reflexivity.
  - rewrite (After_on_dead_session demo_env C (mkScenario "late" false) 0%nat w eq_refl Hdead).
    reflexivity.
Defined.

(** X3: when [global.driver] holds a value that is not a driver object
    ([null] after [createWorld] under ['always'], [undefined], ...), the
    after hook fails with a TypeError for every scenario, passed or failed,
    before any command is sent: the state is untouched. *)
Theorem After_without_driver (E : Env) (C : Config) (scenario : Scenario)
    (v : jsval) (w : World) :
  w_globals w !! "driver" = Some v ->
  (forall h, v <> VSession h) ->
  run_hook (After E C scenario) w =
  (Normal (Rejected (TypeError "Cannot read property of a value that is not a driver")), w).
Proof.
  intros Hv Hnone.
  assert (Hthrow : as_session (global_get "driver" (w_globals w)) w =
                   (Thrown (TypeError "Cannot read property of a value that is not a driver"),
                    w)).
  { unfold global_get. rewrite Hv. cbn [default from_option id].
    destruct v; try reflexivity. exfalso. eapply Hnone. reflexivity. }
  unfold run_hook, After. destruct (isFailed scenario && negb (noScreenshot C)).
  - unfold then_ at 1. unfold bind at 1. unfold bind at 1. unfold get at 1.
    cbv beta iota. unfold bind at 1. rewrite Hthrow. reflexivity.
  - assert (Hfree : global_driver w =
                    (Thrown (TypeError "Cannot read property of a value that is not a driver"),
                     w)).
    { unfold global_driver, bind, get. rewrite Hv.
      destruct v; try reflexivity. exfalso. eapply Hnone. reflexivity. }
    unfold teardownBrowser, async, bind, clearCookiesAndStorages, bind, clearCookies, bind.
    rewrite Hfree. reflexivity.
Qed.

Lemma After_without_driver_witness :
  run_hook (After demo_env (demo_config "chrome" "always") (mkScenario "login" true))
           (createWorld (demo_config "chrome" "always") (initial_world ∅)).2
  = (Normal (Rejected (TypeError "Cannot read property of a value that is not a driver")),
     (createWorld (demo_config "chrome" "always") (initial_world ∅)).2).
Proof.
  apply (After_without_driver demo_env (demo_config "chrome" "always")
           (mkScenario "login" true) VNull).
  - reflexivity.
  - intros h. discriminate.
Defined.

(** ** AfterFeatures at the edges *)

Lemma closeBrowser_without_driver C w :
  (forall h, w_driver w <> VSession h) ->
  closeBrowser C w =
  (Thrown (TypeError "Cannot read property of a value that is not a driver"), w).
Proof.
  intros Hnone. unfold closeBrowser, then_. unfold bind at 1. unfold bind at 1.
  unfold get at 1. cbv beta iota. unfold bind at 1.
  destruct (w_driver w) eqn:Hv; try reflexivity.
  exfalso. eapply Hnone. reflexivity.
Qed.

(** X4: a run without scenarios never creates a driver.  When the
    report step of its [AfterFeatures] throws, the run ends with that
    error.  Otherwise, under a strategy other than ['always'] the handler
    throws a TypeError on [driver.close()], after the reports were
    written, and [done] is never called; under ['always'] it calls [done]
    and sends nothing. *)
Theorem run_without_scenarios (E : Env) (C : Config) (g : gmap string jsval) :
  let w0 := (createWorld C (initial_world g)).2 in
  run E C [] (initial_world g) =
  match report_result E C with
  | Thrown e => (Thrown e, set_trace (report_events E C) w0)
  | Normal _ =>
      if String.eqb (browserTeardownStrategy C) "always"
      then (Normal [], set_trace (report_events E C ++ [EDone]) w0)
      else (Thrown (TypeError "Cannot read property of a value that is not a driver"),
            set_trace (report_events E C) w0)
  end.
Proof.
  intros w0. unfold run. unfold bind at 1. unfold createWorld at 1, modify at 1.
  change (set_globals (createWorld_globals C (w_globals (initial_world g)))
            (initial_world g)) with w0.
  cbn [run_scenarios]. unfold bind at 1. unfold ret at 1.
  unfold bind at 1. unfold AfterFeatures. unfold bind at 1.
  rewrite generate_reports_run.
  destruct (report_result E C) as [[]|e]; [| reflexivity].
  destruct (String.eqb (browserTeardownStrategy C) "always"); cbn [negb].
  - reflexivity.
  - unfold bind at 1. unfold then_. unfold bind at 1.
    rewrite closeBrowser_without_driver by (intros h; discriminate). reflexivity.
Qed.

Lemma closeBrowser_dead C h w :
  w_driver w = VSession h ->
  ~ live h w ->
  closeBrowser C w =
  (Normal (Rejected (WebDriverError "no such session")),
   set_trace (w_trace w ++ [EClose h]) w).
Proof.
  intros Hd Hdead. unfold closeBrowser, then_. unfold bind at 1. unfold bind at 1.
  unfold get at 1. cbv beta iota. rewrite Hd. cbn [as_session].
  unfold bind at 1, ret at 1. unfold close.
  rewrite (command_dead _ _ _ _ _ Hdead). reflexivity.
Qed.

(** X5: when the session of [driver] no longer answers (a step has quit
    it, or the browser has died) and the strategy is not ['always'],
    [AfterFeatures] never calls [done]: when its report step throws it
    ends with that error and sends nothing; otherwise it sends the close,
    which is rejected, and no quit. *)
Theorem AfterFeatures_on_dead_session_never_done (E : Env) (C : Config)
    (h : nat) (w : World) :
  browserTeardownStrategy C <> "always" ->
  w_driver w = VSession h ->
  ~ live h w ->
  AfterFeatures E C w =
  match report_result E C with
  | Thrown e => (Thrown e, set_trace (w_trace w ++ report_events E C) w)
  | Normal _ => (Normal tt, set_trace (w_trace w ++ report_events E C ++ [EClose h]) w)
  end.
Proof.
  intros Ha Hd Hdead. apply String.eqb_neq in Ha.
  unfold AfterFeatures. unfold bind at 1. rewrite generate_reports_run.
  destruct (report_result E C) as [[]|e]; [| reflexivity].
  rewrite Ha. cbn [negb]. unfold bind at 1. unfold then_. unfold bind at 1.
  rewrite (closeBrowser_dead C h) by (try exact Hd; exact Hdead).
  unfold ret, set_trace. simpl. rewrite <- app_assoc. reflexivity.
Qed.

Lemma AfterFeatures_on_dead_session_never_done_witness :
  let C := demo_config "chrome" "clear" in
  let w := (AfterFeatures demo_env C (BeforeScenario demo_env C (initial_world ∅)).2).2 in
  w_trace (AfterFeatures demo_env C w).2 =
    [EBuild 0; EMaximize 0; EClose 0; EQuit 0; EDone; EClose 0].
Proof.
  intros C w.
  assert (Hdead : ~ live 0 w).
  { intros (s & Hs & Hl). vm_compute in Hs. injection Hs as <-. discriminate Hl. }
  rewrite (AfterFeatures_on_dead_session_never_done demo_env C 0%nat w
             ltac:(discriminate) eq_refl Hdead).
  reflexivity.
Defined.

(** ** BeforeScenario *)

Lemma getDriverInstance_unknown E C w :
  ~ In (browserName C) ["firefox"; "phantomjs"; "electron"; "chrome"] ->
  isFileSync E (path_resolve E (cwd E) (browserName C)) = false ->
  getDriverInstance E C w =
  (Thrown (Error ("Could not find driver file: "
                    +:+ path_resolve E (cwd E) (browserName C))), w).
Proof.
  intros Hn Hfile. rewrite (getDriverInstance_default E C w Hn).
  cbv zeta. rewrite Hfile. reflexivity.
Qed.

(** X6: a browser identifier that is neither a named browser nor a driver
    file stops the run at the before handler of the first scenario: the
    error names the file, no session is built, no command is sent, and
    [AfterFeatures] is not reached. *)
Theorem run_with_unknown_driver_stops (E : Env) (C : Config) (g : gmap string jsval)
    (scenarios : list Scenario) :
  ~ In (browserName C) ["firefox"; "phantomjs"; "electron"; "chrome"] ->
  isFileSync E (path_resolve E (cwd E) (browserName C)) = false ->
  scenarios <> [] ->
  exists w',
    run E C scenarios (initial_world g) =
      (Thrown (Error ("Could not find driver file: "
                        +:+ path_resolve E (cwd E) (browserName C))), w')
    /\ w_trace w' = [] /\ w_sessions w' = [] /\ w_driver w' = VUndefined.
Proof.
  intros Hn Hfile Hne. destruct scenarios as [|scenario rest]; [congruence |].
  eexists. split.
  - unfold run. unfold bind at 1. unfold createWorld at 1, modify at 1.
    unfold bind at 1. cbn [run_scenarios]. unfold bind at 1.
    unfold run_scenario. unfold bind at 1. unfold createWorld at 1, modify at 1.
    unfold bind at 1. unfold BeforeScenario. unfold bind at 1. unfold get at 1.
    cbv beta iota. cbn [w_driver set_globals initial_world truthy negb].
    unfold bind at 1. rewrite (getDriverInstance_unknown E C _ Hn Hfile). reflexivity.
  - repeat split.
Qed.

Lemma run_with_unknown_driver_stops_witness :
  (run demo_env (demo_config "opera" "clear") [mkScenario "login" false] (initial_world ∅)).1
  = Thrown (Error "Could not find driver file: /home/ci/opera").
Proof.
  destruct (run_with_unknown_driver_stops demo_env (demo_config "opera" "clear") ∅
              [mkScenario "login" false]
              ltac:(simpl; intros [H | [H | [H | [H | []]]]]; discriminate H)
              eq_refl ltac:(discriminate)) as (w' & Hrun & _).
  rewrite Hrun. reflexivity.
Defined.

(** ** The run under the strategy 'always' *)

(** The hooks of one scenario keep a shared session shared, whatever the
    teardown strategy: the before handler publishes [driver] again after
    [createWorld]. *)
Lemma run_scenario_keeps_shared E C scenario h w :
  session_shared h w ->
  exists w',
    run_scenario E C scenario w = (Normal (VSession h), w') /\ session_shared h w'.
Proof.
  intros (Hd & Hg & Hl & Hlife).
  unfold run_scenario. unfold bind at 1. unfold createWorld at 1, modify at 1.
  unfold bind at 1. unfold BeforeScenario. unfold bind at 1. unfold get at 1.
  cbv beta iota. cbn [w_driver set_globals]. rewrite Hd. cbn [truthy negb].
  unfold bind at 1. unfold ret at 1. unfold set_global, modify.
  unfold bind at 1. unfold get at 1. cbv beta iota.
  cbn [w_globals set_globals]. unfold global_get at 1. rewrite lookup_insert_eq.
  cbn [default from_option].
  match goal with |- context [bind (run_hook (After E C scenario)) _ ?wb] =>
    destruct (After_run E C scenario h wb) as (events & Hafter & Hquiet)
  end.
  { unfold global_get. cbn [w_globals set_globals]. now rewrite lookup_insert_eq. }
  { exact Hl. }
  unfold bind at 1. unfold run_hook. rewrite Hafter. unfold ret.
  eexists. split; [reflexivity |]. repeat split.
  - exact Hd.
  - unfold global_get. cbn [w_globals set_globals set_trace]. now rewrite lookup_insert_eq.
  - exact Hl.
  - cbn [w_trace set_globals set_trace]. rewrite lifecycle_app, Hlife, Hquiet. reflexivity.
Qed.

Lemma run_scenario_first E C scenario w :
  provides_session E C = true ->
  truthy (w_driver w) = false ->
  lifecycle (w_trace w) = [] ->
  exists w',
    run_scenario E C scenario w = (Normal (VSession (length (w_sessions w))), w')
    /\ session_shared (length (w_sessions w)) w'.
Proof.
  intros Hp Hnone Hlife.
  unfold run_scenario. unfold bind at 1. unfold createWorld at 1, modify at 1.
  unfold bind at 1. unfold BeforeScenario. unfold bind at 1. unfold get at 1.
  cbv beta iota. cbn [w_driver set_globals]. rewrite Hnone. cbn [negb].
  unfold bind at 1.
  match goal with |- context [getDriverInstance E C ?wa] =>
    destruct (getDriverInstance_creates E C wa Hp) as (s & events & Hcreate & Hs & Hev)
  end.
  rewrite Hcreate. cbn [w_sessions w_eyes w_globals w_trace w_clock].
  unfold set_global, modify.
  unfold bind at 1. unfold get at 1. cbv beta iota.
  cbn [w_globals set_globals]. unfold global_get at 1. rewrite lookup_insert_eq.
  cbn [default from_option].
  assert (Hl : forall g t,
             live (length (w_sessions w))
                  (mkWorld (VSession (length (w_sessions w))) (w_eyes w) g
                           (w_sessions w ++ [s]) t (w_clock w))).
  { intros g t. exists s. split; [apply lookup_snoc | exact Hs]. }
  match goal with |- context [bind (run_hook (After E C scenario)) _ ?wb] =>
    destruct (After_run E C scenario (length (w_sessions w)) wb) as (tail & Hafter & Hquiet)
  end.
  { unfold global_get. cbn [w_globals set_globals]. now rewrite lookup_insert_eq. }
  { apply Hl. }
  unfold bind at 1. unfold run_hook. rewrite Hafter. unfold ret.
  eexists. split; [reflexivity |]. repeat split.
  - unfold global_get. cbn [w_globals set_globals set_trace]. now rewrite lookup_insert_eq.
  - apply Hl.
  - cbn [w_trace set_globals set_trace].
    rewrite !lifecycle_app, Hlife, Hquiet, lifecycle_build, Hev. reflexivity.
Qed.

Lemma run_scenarios_keep_shared E C scenarios :
  forall h w,
    session_shared h w ->
    exists w',
      run_scenarios E C scenarios w = (Normal (repeat (VSession h) (length scenarios)), w')
      /\ session_shared h w'.
Proof.
  induction scenarios as [|scenario rest IH]; intros h w Hshared.
  - exists w. split; [reflexivity | exact Hshared].
  - destruct (run_scenario_keeps_shared E C scenario h w Hshared) as (w1 & Hone & Hshared1).
    destruct (IH h w1 Hshared1) as (w2 & Hrest & Hshared2).
    exists w2. split; [| exact Hshared2].
    cbn [run_scenarios length repeat]. unfold bind at 1. rewrite Hone.
    unfold bind at 1. rewrite Hrest. reflexivity.
Qed.

Lemma createWorld_always_resets_driver C w :
  browserTeardownStrategy C = "always" ->
  global_get "driver" (w_globals (createWorld C w).2) = VNull.
Proof.
  intros Ha. unfold createWorld, modify, global_get. cbn [snd w_globals set_globals].
  rewrite createWorld_globals_unfold, Ha. simpl. now simplify_map_eq.
Qed.

(** X7: under the strategy ['always'] the session is reused all the same:
    every [createWorld] sets [global.driver] to [null], but the before
    handler publishes the module variable [driver] again, so one session is
    built for the whole run and every scenario sees it.  That session is
    never closed or quit: it is still live when the run is over, whether
    [AfterFeatures] has called [done] (its report step completed) or has
    ended with the error of its report step. *)
Theorem always_strategy_reuses_and_never_destroys (E : Env) (C : Config)
    (g : gmap string jsval) (scenarios : list Scenario) :
  browserTeardownStrategy C = "always" ->
  provides_session E C = true ->
  scenarios <> [] ->
  exists w',
    run E C scenarios (initial_world g) =
      (match report_result E C with
       | Normal _ => Normal (repeat (VSession 0) (length scenarios))
       | Thrown e => Thrown e
       end, w')
    /\ lifecycle (w_trace w') = [EBuild 0]
    /\ live 0 w'
    /\ (report_result E C = Normal tt -> last (w_trace w') = Some EDone)
    /\ (forall w, global_get "driver" (w_globals (createWorld C w).2) = VNull).
Proof.
  intros Ha Hp Hne. destruct scenarios as [|scenario rest]; [congruence |].
  pose (w0 := (createWorld C (initial_world g)).2).
  destruct (run_scenario_first E C scenario w0 Hp eq_refl eq_refl)
    as (wa & Hfirst & Hshared).
  change (length (w_sessions w0)) with 0%nat in Hfirst, Hshared.
  destruct (run_scenarios_keep_shared E C rest 0%nat wa Hshared)
    as (w1 & Hrest & Hshared1).
  destruct Hshared1 as (Hd & Hglobal & (s & Hs & Hl) & Hlife).
  assert (Hrun : forall r w2,
    AfterFeatures E C w1 = (r, w2) ->
    run E C (scenario :: rest) (initial_world g) =
    (match r with
     | Normal _ => Normal (repeat (VSession 0) (length (scenario :: rest)))
     | Thrown e => Thrown e
     end, w2)).
  { intros r w2 Hfinal. unfold run. unfold bind at 1. unfold createWorld at 1, modify at 1.
    change (set_globals (createWorld_globals C (w_globals (initial_world g)))
              (initial_world g)) with w0.
    unfold bind at 1. cbn [run_scenarios length repeat]. unfold bind at 1.
    rewrite Hfirst. unfold bind at 1. rewrite Hrest. unfold ret at 1.
    unfold bind at 1. rewrite Hfinal. now destruct r. }
  destruct (report_result E C) as [[]|e] eqn:Hr.
  - pose proof (AfterFeatures_run E C 0%nat s w1 Hr Hd Hs Hl) as Hfinal.
    rewrite Ha in Hfinal. cbn [String.eqb Ascii.eqb Bool.eqb] in Hfinal.
    eexists. split; [exact (Hrun _ _ Hfinal) |]. split; [| split; [| split]].
    + cbn [w_trace]. rewrite lifecycle_of_AfterFeatures, Hlife. unfold final_teardown.
      rewrite Ha. reflexivity.
    + exists s. split; assumption.
    + intros _. cbn [w_trace]. rewrite !app_assoc. apply last_snoc.
    + intros w. now apply createWorld_always_resets_driver.
  - pose proof (AfterFeatures_report_throws E C e w1 Hr) as Hfinal.
    eexists. split; [exact (Hrun _ _ Hfinal) |]. split; [| split; [| split]].
    + cbn [w_trace set_trace]. rewrite lifecycle_app, Hlife, report_events_no_lifecycle.
      reflexivity.
    + exists s. split; assumption.
    + discriminate.
    + intros w. now apply createWorld_always_resets_driver.
Qed.

Lemma always_strategy_reuses_and_never_destroys_witness :
  let C := demo_config "chrome" "always" in
  let scenarios := [mkScenario "login" false; mkScenario "checkout" true] in
  (run demo_env C scenarios (initial_world ∅)).1 = Normal [VSession 0; VSession 0]
  /\ lifecycle (w_trace (run demo_env C scenarios (initial_world ∅)).2) = [EBuild 0].
Proof.
  intros C scenarios.
  destruct (always_strategy_reuses_and_never_destroys demo_env C ∅ scenarios
              eq_refl eq_refl ltac:(discriminate)) as (w' & Hrun & Hlife & _).
  rewrite Hrun. split; [reflexivity | exact Hlife].
Defined.

(** ** createWorld, again *)

Lemma truthy_or_empty v : truthy (js_or v VEmptyObject) = true.
Proof. unfold js_or. destruct (truthy v) eqn:Hv; [exact Hv | reflexivity]. Qed.

Lemma js_or_truthy v d : truthy v = true -> js_or v d = v.
Proof. intros Hv. unfold js_or. now rewrite Hv. Qed.

Lemma createWorld_globals_page C g :
  global_get "page" (createWorld_globals C g) = js_or (global_get "page" g) VEmptyObject.
Proof.
  unfold global_get at 1. rewrite createWorld_globals_unfold. now simplify_map_eq.
Qed.

Lemma createWorld_globals_shared C g :
  global_get "shared" (createWorld_globals C g) = js_or (global_get "shared" g) VEmptyObject.
Proof.
  unfold global_get at 1. rewrite createWorld_globals_unfold. now simplify_map_eq.
Qed.

(** X8: [createWorld] can be called again and again: a second call changes
    nothing ([global] after two calls is [global] after one).  It keeps
    page and shared objects that are already loaded (any truthy
    [global.page] / [global.shared]), and it leaves every global that is
    not a key of [runtime] as it was. *)
Theorem createWorld_is_idempotent (C : Config) (g : gmap string jsval) :
  createWorld_globals C (createWorld_globals C g) = createWorld_globals C g
  /\ (truthy (global_get "page" g) = true ->
      createWorld_globals C g !! "page" = Some (global_get "page" g))
  /\ (truthy (global_get "shared" g) = true ->
      createWorld_globals C g !! "shared" = Some (global_get "shared" g))
  /\ (forall key, ~ In key (map fst (runtime g)) ->
                  createWorld_globals C g !! key = g !! key).
Proof.
  split; [| split; [| split]].
  - rewrite (createWorld_globals_unfold C (createWorld_globals C g)).
    rewrite createWorld_globals_page, createWorld_globals_shared.
    rewrite !(js_or_truthy _ _ (truthy_or_empty _)).
    rewrite (createWorld_globals_unfold C g).
    apply map_eq. intros key.
    destruct (negb (String.eqb (browserTeardownStrategy C) "always"));
      repeat (rewrite lookup_insert; case_decide; [try reflexivity |]);
      try reflexivity;
      subst; simplify_map_eq; reflexivity.
  - intros Hp. rewrite createWorld_globals_unfold. simplify_map_eq.
    now rewrite js_or_truthy.
  - intros Hs. rewrite createWorld_globals_unfold. simplify_map_eq.
    now rewrite js_or_truthy.
  - intros key Hkey. simpl in Hkey. rewrite createWorld_globals_unfold.
    assert (forall k, In k ["driver"; "eyes"; "selenium"; "By"; "by"; "until"; "expect";
                            "assert"; "trace"; "page"; "shared"] -> key <> k) as Hne.
    { intros k Hk ->. apply Hkey. exact Hk. }
    destruct (negb (String.eqb (browserTeardownStrategy C) "always"));
      repeat (rewrite lookup_insert_ne by (apply not_eq_sym, Hne; simpl; tauto));
      reflexivity.
Qed.

Lemma createWorld_is_idempotent_witness :
  let g : gmap string jsval := {["page" := VRef "pages"; "helpers" := VRef "helpers"]} in
  createWorld_globals (demo_config "chrome" "clear") g !! "page" = Some (VRef "pages")
  /\ createWorld_globals (demo_config "chrome" "clear") g !! "helpers" = Some (VRef "helpers").
Proof.
  intros g.
  destruct (createWorld_is_idempotent (demo_config "chrome" "clear") g)
    as (_ & Hpage & _ & Hframe).
  split.
  - apply Hpage. reflexivity.
  - etransitivity; [apply Hframe | reflexivity].
    simpl. intros H. repeat (destruct H as [H | H]; [discriminate H |]). exact H.
Defined.

(** ** BeforeScenario and the two copies of the driver *)

Lemma factory_result_published (m : M jsval) w :
  match bind m (fun driver =>
          bind (modify (set_driver driver)) (fun _ =>
          bind (set_global "driver" driver) (fun _ =>
          bind get (fun w => ret (global_get "driver" (w_globals w)))))) w with
  | (Normal v, w') =>
      exists w1, m w = (Normal v, w1)
                 /\ w' = set_globals (<["driver" := v]> (w_globals w1)) (set_driver v w1)
  | (Thrown e, w') => m w = (Thrown e, w')
  end.
Proof.
  destruct (m w) as [[v|e] w1] eqn:Hm.
  - rewrite (publish_run m v w w1 Hm). exists w1. split; reflexivity.
  - unfold bind at 1. rewrite Hm. reflexivity.
Qed.

(** X9: whenever the before handler returns, [global.driver] is the module
    variable [driver]: either the driver that was there (any truthy value)
    or the value that [getDriverInstance] has just stored in both.  This
    holds for every browser identifier and every custom driver module. *)
Theorem BeforeScenario_publishes_driver (E : Env) (C : Config) (w w' : World) :
  BeforeScenario E C w = (Normal tt, w') ->
  global_get "driver" (w_globals w') = w_driver w'
  /\ (truthy (w_driver w) = true -> w_driver w' = w_driver w /\ w_sessions w' = w_sessions w).
Proof.
  unfold BeforeScenario. unfold bind at 1. unfold get at 1. cbv beta iota.
  destruct (truthy (w_driver w)) eqn:Ht; cbn [negb].
  - unfold bind, ret, set_global, modify. intros H. injection H as <-.
    split; [| intros _; split; reflexivity].
    unfold global_get. cbn [w_globals set_globals w_driver].
    now rewrite lookup_insert_eq.
  - unfold bind at 1. unfold getDriverInstance.
    match goal with |- context [bind ?m ?k w] =>
      pose proof (factory_result_published m w) as Hpub;
      destruct (bind m k w) as [[v|e] w1]
    end; [| discriminate].
    destruct Hpub as (w2 & _ & ->).
    unfold set_global, modify. intros H. injection H as <-.
    split; [| discriminate].
    unfold global_get. cbn [w_globals set_globals w_driver set_driver].
    now rewrite lookup_insert_eq.
Qed.

Lemma BeforeScenario_publishes_driver_witness :
  let w' := (BeforeScenario demo_env (demo_config "drivers/opera.js" "clear")
               (initial_world ∅)).2 in
  global_get "driver" (w_globals w') = w_driver w'.
Proof.
  intros w'.
  apply (BeforeScenario_publishes_driver demo_env (demo_config "drivers/opera.js" "clear")
           (initial_world ∅) w').
  reflexivity.
Defined.

(** ** The session of a named browser *)

(** X10: for each of the four named browsers [getDriverInstance] never
    throws; it appends one live session to the store and touches no
    session that was there, returns its handle, which no earlier session
    has, and the [browserName] capability of the new session is the
    identifier that was asked for (for electron it is set by
    [forBrowser], the other factories write it in the capabilities). *)
Theorem named_driver_session_is_fresh (E : Env) (C : Config) (w : World) :
  In (browserName C) ["firefox"; "phantomjs"; "electron"; "chrome"] ->
  exists s w',
    getDriverInstance E C w = (Normal (VSession (length (w_sessions w))), w')
    /\ w_sessions w' = w_sessions w ++ [s]
    /\ w_sessions w !! length (w_sessions w) = None
    /\ cap_get "browserName" (sess_caps s) = Some (CStr (browserName C))
    /\ sess_live s = true
    /\ w_driver w' = VSession (length (w_sessions w)).
Proof.
  intros [H | [H | [H | [H | []]]]]; unfold getDriverInstance; rewrite <- H;
    cbn [String.eqb Ascii.eqb Bool.eqb].
  - exists (mkSession (firefox_capabilities E) true true false). eexists.
    split; [apply (publish_run (FireFoxDriver E)), build_maximize_run |].
    repeat split. apply lookup_ge_None_2. lia.
  - exists (mkSession (phantomjs_capabilities E) true true false). eexists.
    split; [apply (publish_run (PhantomJSDriver E)), build_maximize_run |].
    repeat split. apply lookup_ge_None_2. lia.
  - exists (mkSession (electron_capabilities E) false true false). eexists.
    split; [apply (publish_run (ElectronDriver E)), ElectronDriver_run |].
    repeat split. apply lookup_ge_None_2. lia.
  - exists (mkSession (chrome_capabilities E) true true false). eexists.
    split; [apply (publish_run (ChromeDriver E)), build_maximize_run |].
    repeat split. apply lookup_ge_None_2. lia.
Qed.

Lemma named_driver_session_is_fresh_witness :
  let w := (getDriverInstance demo_env (demo_config "chrome" "clear") (initial_world ∅)).2 in
  (getDriverInstance demo_env (demo_config "electron" "clear") w).1 = Normal (VSession 1).
Proof.
  intros w.
  destruct (named_driver_session_is_fresh demo_env (demo_config "electron" "clear") w
              ltac:(simpl; tauto)) as (s & w' & Hrun & _).
  rewrite Hrun. reflexivity.
Defined.

(** * Further properties of the helpers *)

(** ** waitForNewWindows at the edges *)

(** X11: with a timeout that is zero or negative after defaulting (a
    negative argument, or no argument and a [DEFAULT_TIMEOUT] that is not
    positive) [waitForNewWindows] resolves with [undefined] at once: it
    asks the browser nothing, does not sleep, and does not even need a
    driver. *)
Theorem waitForNewWindows_without_time (E : Env) (C : Config)
    (waitInMilliseconds : option Z) (w : World) :
  (waitForNewWindows_timeout C waitInMilliseconds <= 0)%Z ->
  waitForNewWindows E C waitInMilliseconds w = (Normal (Resolved (Some None)), w).
Proof.
  intros Hle. unfold waitForNewWindows, async. cbn [waitForNewWindows_loop].
  destruct (Z.ltb_spec 0 (waitForNewWindows_timeout C waitInMilliseconds)); [lia |].
  reflexivity.
Qed.

Lemma waitForNewWindows_without_time_witness :
  waitForNewWindows demo_env (demo_config "chrome" "clear") (Some (-5)%Z) (initial_world ∅)
  = (Normal (Resolved (Some None)), initial_world ∅).
Proof.
  apply waitForNewWindows_without_time. vm_compute. discriminate.
Defined.

(** The loop of the source with the time it takes: a sleep of 1000 ms
    after every poll that saw no second window. *)
Lemma waitForNewWindows_loop_clock E h timeout n :
  forall fuel i w,
    global_get "driver" (w_globals w) = VSession h ->
    live h w ->
    polls_before (timeout - i) = n ->
    (n < fuel)%nat ->
    exists result w',
      waitForNewWindows_loop E fuel timeout i w = (Normal (Some result), w')
      /\ match result with
         | Some windows =>
             exists k, (k < n)%nat
               /\ w_clock w' = (w_clock w + 1000 * Z.of_nat k)%Z
               /\ windows = window_handles E h (w_clock w')
               /\ (1 < length windows)%nat
         | None => w_clock w' = (w_clock w + 1000 * Z.of_nat n)%Z
         end.
Proof.
  induction n as [|n IH]; intros fuel i w Hd Hl Hn Hfuel.
  - destruct fuel as [|fuel]; [lia |]. simpl.
    rewrite (polls_before_zero _ _ Hn). exists None, w. split; [reflexivity | lia].
  - destruct fuel as [|fuel]; [lia |].
    destruct (polls_before_succ _ _ _ Hn) as [Hlt Hrest].
    cbn [waitForNewWindows_loop]. rewrite Hlt.
    unfold bind at 1. rewrite (global_driver_run _ _ Hd).
    unfold bind at 1. rewrite (await_getAllWindowHandles_run E _ _ Hl).
    destruct (Nat.ltb_spec 1 (length (window_handles E h (w_clock w)))) as [Hgt|Hle].
    + eexists (Some _), _. split; [reflexivity |]. exists 0%nat.
      cbn [w_clock set_trace]. rewrite Z.mul_0_r, Z.add_0_r.
      repeat split; [lia | exact Hgt].
    + unfold bind at 1. rewrite (global_driver_run h) by exact Hd.
      unfold bind at 1. rewrite await_sleep_run.
      edestruct (IH fuel (i + 1000)%Z) as (result & w' & Hrun & Hres);
        [| | exact Hrest | lia |].
      3: { exists result, w'. split; [exact Hrun |].
           cbn [w_clock set_clock set_trace] in Hres.
           destruct result as [windows|].
           - destruct Hres as (k & Hk & Hclock & Hw & Hlen).
             exists (S k). repeat split; [lia | lia | exact Hw | exact Hlen].
           - lia. }
      * exact Hd.
      * exact Hl.
Qed.

(** X12: on a live session and with a positive timeout, a
    [waitForNewWindows] that gives up has slept for at least the timeout
    and for less than the timeout plus one second (the timeout rounded up
    to whole seconds); one that finds a second window returns the list of
    the poll it has just made, without a further sleep, having slept for
    less than the timeout. *)
Theorem waitForNewWindows_elapsed_time (E : Env) (C : Config)
    (waitInMilliseconds : option Z) (h : nat) (w : World) :
  global_get "driver" (w_globals w) = VSession h ->
  live h w ->
  let timeout := waitForNewWindows_timeout C waitInMilliseconds in
  (0 < timeout)%Z ->
  exists result w',
    waitForNewWindows E C waitInMilliseconds w = (Normal (Resolved (Some result)), w')
    /\ match result with
       | Some windows =>
           windows = window_handles E h (w_clock w')
           /\ (1 < length windows)%nat
           /\ (0 <= w_clock w' - w_clock w < timeout)%Z
       | None =>
           (timeout <= w_clock w' - w_clock w < timeout + 1000)%Z
           /\ (w_clock w' - w_clock w = 1000 * ((timeout + 999) / 1000))%Z
       end.
Proof.
  intros Hd Hl timeout Hpos.
  destruct (waitForNewWindows_loop_clock E h timeout (polls_before timeout)
              (S (Z.to_nat timeout)) 0%Z w Hd Hl)
    as (result & w' & Hrun & Hres); [f_equal; lia | apply polls_before_fuel |].
  exists result, w'. split.
  - unfold waitForNewWindows, async. fold timeout. rewrite Hrun. reflexivity.
  - destruct result as [windows|].
    + destruct Hres as (k & Hk & Hclock & Hw & Hlen).
      apply polls_before_lt in Hk. repeat split; [exact Hw | exact Hlen | lia | lia].
    + unfold polls_before in Hres.
      pose proof (Z.div_mod (timeout + 999) 1000 ltac:(lia)) as Hdm.
      pose proof (Z.mod_pos_bound (timeout + 999) 1000 ltac:(lia)) as Hmod.
      assert (0 <= (timeout + 999) / 1000)%Z by (apply Z.div_pos; lia).
      rewrite Z2Nat.id in Hres by assumption. repeat split; lia.
Qed.

Lemma waitForNewWindows_elapsed_time_witness :
  let w := (ChromeDriver demo_env (initial_world {["driver" := VSession 0]})).2 in
  exists result w',
    waitForNewWindows demo_env (demo_config "chrome" "clear") (Some 1500%Z) w
      = (Normal (Resolved (Some result)), w')
    /\ match result with
       | Some windows =>
           windows = window_handles demo_env 0 (w_clock w')
           /\ (1 < length windows)%nat
           /\ (0 <= w_clock w' - w_clock w < 1500)%Z
       | None =>
           (1500 <= w_clock w' - w_clock w < 1500 + 1000)%Z
           /\ (w_clock w' - w_clock w = 1000 * ((1500 + 999) / 1000))%Z
       end.
Proof.
  intros w.
  apply (waitForNewWindows_elapsed_time demo_env (demo_config "chrome" "clear")
           (Some 1500%Z) 0%nat w).
  - reflexivity.
  - eexists. split; reflexivity.
  - reflexivity.
Defined.

(** X13: [waitForNewWindows] is rejected, and does not resolve with
    [undefined], when it has time to poll but no browser to ask: with a
    TypeError and nothing sent when [global.driver] holds a value that is
    not a driver, and with the error of the first poll when the session no
    longer answers. *)
Theorem waitForNewWindows_rejects_without_session (E : Env) (C : Config)
    (waitInMilliseconds : option Z) (w : World) :
  (0 < waitForNewWindows_timeout C waitInMilliseconds)%Z ->
  (forall v,
     w_globals w !! "driver" = Some v ->
     (forall h, v <> VSession h) ->
     waitForNewWindows E C waitInMilliseconds w =
     (Normal (Rejected (TypeError "Cannot read property of a value that is not a driver")),
      w))
  /\ (forall h,
        global_get "driver" (w_globals w) = VSession h ->
        ~ live h w ->
        waitForNewWindows E C waitInMilliseconds w =
        (Normal (Rejected (WebDriverError "no such session")),
         set_trace (w_trace w ++ [EGetAllWindowHandles h]) w)).
Proof.
  intros Hpos.
  assert (Hlt : (0 <? waitForNewWindows_timeout C waitInMilliseconds)%Z = true)
    by now apply Z.ltb_lt.
  split.
  - intros v Hv Hnone. unfold waitForNewWindows, async. cbn [waitForNewWindows_loop].
    rewrite Hlt. unfold bind at 1. unfold global_driver, bind, get, global_get.
    rewrite Hv. cbn [default from_option id].
    destruct v; try reflexivity. exfalso. eapply Hnone. reflexivity.
  - intros h Hd Hdead. unfold waitForNewWindows, async. cbn [waitForNewWindows_loop].
    rewrite Hlt. unfold bind at 1. rewrite (global_driver_run h w Hd).
    unfold bind at 1. unfold await, bind at 1. unfold getAllWindowHandles.
    rewrite (command_dead _ _ _ _ _ Hdead). reflexivity.
Qed.

Lemma waitForNewWindows_rejects_without_session_witness :
  waitForNewWindows demo_env (demo_config "chrome" "clear") None
    (initial_world {["driver" := VNull]})
  = (Normal (Rejected (TypeError "Cannot read property of a value that is not a driver")),
     initial_world {["driver" := VNull]})
  /\ (waitForNewWindows demo_env (demo_config "chrome" "clear") None
        (initial_world {["driver" := VSession 3]})).1
     = Normal (Rejected (WebDriverError "no such session")).
Proof.
  pose (w0 := initial_world {["driver" := VNull]}).
  assert (Hv : w_globals w0 !! "driver" = Some VNull) by reflexivity.
  pose (w := initial_world {["driver" := VSession 3]}).
  assert (Hd : global_get "driver" (w_globals w) = VSession 3) by reflexivity.
  assert (Hdead : ~ live 3 w) by (intros (s & Hs & _); discriminate Hs).
  split.
  - apply (proj1 (waitForNewWindows_rejects_without_session demo_env
                    (demo_config "chrome" "clear") None w0 eq_refl) VNull Hv).
    intros h. discriminate.
  - fold w.
    rewrite (proj2 (waitForNewWindows_rejects_without_session demo_env
                      (demo_config "chrome" "clear") None w eq_refl) 3%nat Hd Hdead).
    reflexivity.
Defined.

(** ** The attribute waits *)











(** ** The helpers before any driver exists *)

(** X22: in [helpers.js] the name [driver] is a free variable, looked up
    on the global object at each call.  As long as nothing has assigned
    [global.driver], the cookie and storage helpers and the three attribute
    waits throw a ReferenceError at the call, before any command is sent
    and before the timeout is looked at; inside the async
    [teardownBrowser] the same error rejects the promise. *)
Theorem helpers_before_any_driver (C : Config) (P : Page)
    (elementSelector attributeName attributeValue : string)
    (waitInMilliseconds : option Z) (w : World) :
  w_globals w !! "driver" = None ->
  let missing := Error "ReferenceError: driver is not defined" in
  clearCookies w = (Thrown missing, w)
  /\ clearStorages w = (Thrown missing, w)
  /\ clearCookiesAndStorages w = (Thrown missing, w)
  /\ waitUntilAttributeEquals C P elementSelector attributeName attributeValue
       waitInMilliseconds w = (Thrown missing, w)
  /\ waitUntilAttributeExists C P elementSelector attributeName waitInMilliseconds w
     = (Thrown missing, w)
  /\ waitUntilAttributeDoesNotExists C P elementSelector attributeName
       waitInMilliseconds w = (Thrown missing, w)
  /\ teardownBrowser w = (Normal (Rejected missing), w).
Proof.
  intros Hnone missing.
  assert (Hfree : global_driver w = (Thrown missing, w)).
  { unfold global_driver, bind, get. rewrite Hnone. reflexivity. }
  repeat split.
  - unfold clearCookies, bind. now rewrite Hfree.
  - unfold clearStorages, bind. now rewrite Hfree.
  - unfold clearCookiesAndStorages, clearCookies, bind. now rewrite Hfree.
  - unfold waitUntilAttributeEquals, driver_wait. unfold bind at 1. now rewrite Hfree.
  - unfold waitUntilAttributeExists, driver_wait. unfold bind at 1. now rewrite Hfree.
  - unfold waitUntilAttributeDoesNotExists, driver_wait. unfold bind at 1. now rewrite Hfree.
  - unfold teardownBrowser, async, clearCookiesAndStorages, clearCookies, bind.
    now rewrite Hfree.
Qed.

Lemma helpers_before_any_driver_witness :
  clearCookiesAndStorages (initial_world ∅)
  = (Thrown (Error "ReferenceError: driver is not defined"), initial_world ∅)
  /\ teardownBrowser (initial_world ∅)
     = (Normal (Rejected (Error "ReferenceError: driver is not defined")), initial_world ∅).
Proof.
  pose proof (helpers_before_any_driver (demo_config "chrome" "clear") demo_page
                "html" "data-busy" "false" None (initial_world ∅) eq_refl)
    as (_ & _ & Hclear & _ & _ & _ & Hteardown).
  split; [exact Hclear | exact Hteardown].
Defined.

(** ** The scripts that look for elements by their text *)

Lemma findElementsContainingText_loop_filter D content elements :
  forall results,
    findElementsContainingText_loop D content elements results =
    results ++ filter (fun e => js_trim D (txtProp D e) = js_trim D content) elements.
Proof.
  induction elements as [|e rest IH]; intros results; simpl.
  - now rewrite app_nil_r.
  - rewrite IH, filter_cons.
    destruct (String.eqb_spec (js_trim D (txtProp D e)) (js_trim D content)) as [He|He].
    + rewrite decide_True by exact He. now rewrite <- app_assoc.
    + rewrite decide_False by exact He. reflexivity.
Qed.

Lemma clickElementInDom_loop_filter D c elements :
  c <> "" ->
  forall clicked,
    clickElementInDom_loop D (Some c) elements clicked =
    clicked ++ filter (fun e => txtProp D e = c) elements.
Proof.
  intros Hc. assert (Hgiven : content_given (Some c) = true).
  { simpl. now apply negb_true_iff, String.eqb_neq. }
  induction elements as [|e rest IH]; intros clicked; cbn [clickElementInDom_loop].
  - rewrite filter_nil. now rewrite app_nil_r.
  - rewrite Hgiven. rewrite IH, filter_cons.
    destruct (decide (txtProp D e = c)) as [He|He].
    + rewrite bool_decide_eq_true_2 by congruence. now rewrite <- app_assoc.
    + rewrite bool_decide_eq_false_2 by congruence. reflexivity.
Qed.

Lemma clickElementInDom_loop_all D content elements :
  content_given content = false ->
  forall clicked, clickElementInDom_loop D content elements clicked = clicked ++ elements.
Proof.
  intros Hnone. induction elements as [|e rest IH]; intros clicked; simpl.
  - now rewrite app_nil_r.
  - rewrite Hnone, IH, <- app_assoc. reflexivity.
Qed.

Lemma sublist_filter_weaken {A} (P Q : A -> Prop)
    `{forall x, Decision (P x)} `{forall x, Decision (Q x)} (l : list A) :
  (forall x, P x -> Q x) -> sublist (filter P l) (filter Q l).
Proof.
  intros Himp. induction l as [|x l IH]; [constructor |].
  rewrite !filter_cons. destruct (decide (P x)) as [Hp|Hp].
  - rewrite decide_True by auto. now constructor.
  - destruct (decide (Q x)); [now constructor | exact IH].
Qed.

(** X17: [findElementsContainingText] returns exactly the elements of the
    query whose trimmed text is the trimmed text to match: every such
    element, no other, each as often as the query has it and in document
    order. *)
Theorem findElementsContainingText_finds_the_matches (D : Document)
    (query content : string) :
  let found := findElementsContainingText D query content in
  sublist found (querySelectorAll D query)
  /\ (forall e, e ∈ found <->
                e ∈ querySelectorAll D query
                /\ js_trim D (txtProp D e) = js_trim D content)
  /\ found = filter (fun e => js_trim D (txtProp D e) = js_trim D content)
                    (querySelectorAll D query).
Proof.
  intros found. unfold found, findElementsContainingText.
  rewrite findElementsContainingText_loop_filter. cbn [app].
  split; [apply sublist_filter | split; [| reflexivity]].
  intros e. rewrite list_elem_of_filter. tauto.
Qed.

(** X18: [clickElementInDom] clicks every element of the query when no text
    is given (or the empty text); with a text it clicks the elements whose
    text is exactly that text, in document order.  It compares without
    trimming, so what it clicks is among what [findElementsContainingText]
    finds for the same text, but an element found only thanks to trimming
    is not clicked. *)
Theorem clickElementInDom_clicks_exact_text (D : Document) (query : string)
    (content : option string) :
  (content_given content = false ->
   clickElementInDom D query content = querySelectorAll D query)
  /\ (forall c, content = Some c -> c <> "" ->
        clickElementInDom D query content =
          filter (fun e => txtProp D e = c) (querySelectorAll D query)
        /\ sublist (clickElementInDom D query content)
                   (findElementsContainingText D query c)).
Proof.
  split.
  - intros Hnone. unfold clickElementInDom.
    now rewrite clickElementInDom_loop_all.
  - intros c -> Hc. unfold clickElementInDom, findElementsContainingText.
    rewrite clickElementInDom_loop_filter by exact Hc.
    rewrite findElementsContainingText_loop_filter. cbn [app].
    split; [reflexivity |].
    apply sublist_filter_weaken. intros e ->. reflexivity.
Qed.

Lemma clickElementInDom_clicks_exact_text_witness :
  clickElementInDom demo_document "nav a" None = querySelectorAll demo_document "nav a"
  /\ map el_id (clickElementInDom demo_document "nav a" (Some "Safety Boots")) = [3%nat]
  /\ map el_id (findElementsContainingText demo_document "nav a" "Safety Boots")
     = [2%nat; 3%nat].
Proof.
  destruct (clickElementInDom_clicks_exact_text demo_document "nav a" None) as [Hall _].
  destruct (clickElementInDom_clicks_exact_text demo_document "nav a" (Some "Safety Boots"))
    as [_ Htext].
  destruct (Htext "Safety Boots" eq_refl ltac:(discriminate)) as [Hclicked _].
  split; [apply Hall; reflexivity |]. split; [rewrite Hclicked |]; reflexivity.
Defined.

Lemma answered_live {A} h (a : A) w :
  live h w -> answered h a w = (Normal (Resolved a), w).
Proof.
  intros (s & Hs & Hl). unfold answered, bind, get, ret. now rewrite Hs, Hl.
Qed.

Lemma head_filter_first {A} (P : A -> Prop) `{forall x, Decision (P x)} (l : list A) :
  (filter P l !! 0%nat = None <-> forall x, x ∈ l -> ~ P x)
  /\ (forall x, filter P l !! 0%nat = Some x ->
        exists before after,
          l = before ++ x :: after /\ P x /\ forall y, y ∈ before -> ~ P y).
Proof.
  induction l as [|a l [IHnone IHsome]].
  - split; [split; [intros _ x Hx; inversion Hx | reflexivity] | discriminate].
  - rewrite filter_cons. destruct (decide (P a)) as [Hp|Hp].
    + split.
      * split; [discriminate |]. intros Hall. exfalso.
        apply (Hall a); [left | exact Hp].
      * intros x [= <-]. exists [], l. repeat split; [exact Hp |].
        intros y Hy. inversion Hy.
    + split.
      * rewrite IHnone. split.
        -- intros Hall x Hx. apply elem_of_cons in Hx as [-> | Hx]; auto.
        -- intros Hall x Hx. apply Hall. now right.
      * intros x Hx. destruct (IHsome x Hx) as (before & after & -> & Hpx & Hbefore).
        exists (a :: before), after. repeat split; [exact Hpx |].
        intros y Hy. apply elem_of_cons in Hy as [-> | Hy]; auto.
Qed.

(** X19: on a live session [getFirstElementContainingText] resolves with the
    first element, in document order, whose trimmed text is the trimmed
    text to match; when no element of the query matches it still resolves,
    with [undefined]. *)
Theorem getFirstElementContainingText_first_or_undefined (D : Document)
    (cssSelector textToMatch : string) (h : nat) (w : World) :
  global_get "driver" (w_globals w) = VSession h ->
  live h w ->
  let matches e := js_trim D (txtProp D e) = js_trim D textToMatch in
  exists first,
    getFirstElementContainingText D cssSelector textToMatch w = (Normal (Resolved first), w)
    /\ (first = None <-> forall e, e ∈ querySelectorAll D cssSelector -> ~ matches e)
    /\ (forall e, first = Some e ->
          exists before after,
            querySelectorAll D cssSelector = before ++ e :: after
            /\ matches e /\ forall b, b ∈ before -> ~ matches b).
Proof.
  intros Hd Hl matches.
  exists (findElementsContainingText D cssSelector textToMatch !! 0%nat). split.
  - unfold getFirstElementContainingText, then_, getElementsContainingText.
    unfold bind at 1. unfold bind at 1. rewrite (global_driver_run h w Hd).
    rewrite (answered_live h _ w Hl). reflexivity.
  - unfold findElementsContainingText. rewrite findElementsContainingText_loop_filter.
    cbn [app]. apply (head_filter_first matches).
Qed.

Lemma getFirstElementContainingText_first_or_undefined_witness :
  let w := (ChromeDriver demo_env (initial_world {["driver" := VSession 0]})).2 in
  getFirstElementContainingText demo_document "nav a" "Safety Boots" w
    = (Normal (Resolved (Some (mkElement 2 " Safety Boots " "Safety Boots"))), w)
  /\ getFirstElementContainingText demo_document "nav a" "Gloves" w
    = (Normal (Resolved None), w).
Proof.
  intros w.
  assert (Hl : live 0 w) by (eexists; split; reflexivity).
  assert (Hd : global_get "driver" (w_globals w) = VSession 0) by reflexivity.
  destruct (getFirstElementContainingText_first_or_undefined demo_document "nav a"
              "Safety Boots" 0%nat w Hd Hl) as (first1 & Hrun1 & _).
  destruct (getFirstElementContainingText_first_or_undefined demo_document "nav a"
              "Gloves" 0%nat w Hd Hl) as (first2 & Hrun2 & _).
  split.
  - rewrite Hrun1. f_equal. vm_compute in Hrun1. now injection Hrun1 as <-.
  - rewrite Hrun2. f_equal. vm_compute in Hrun2. now injection Hrun2 as <-.
Defined.

(** ** waitForCssXpathElement and selectDropdownValueByVisibleText *)

(** X20: [waitForCssXpathElement] can never succeed: [localizador] is the
    cucumber module, which has no [indexOf], so the call that should tell
    an XPath from a CSS selector throws a TypeError for every selector and
    every timeout, before the driver is asked anything.
    [selectDropdownValueByVisibleText] awaits it first and is therefore
    always rejected with that error, without selecting any option. *)
Theorem waitForCssXpathElement_always_throws (C : Config) (D : Document) (P : Page)
    (elementSelector : string) (waitInMilliseconds : option Z) (w : World) :
  waitForCssXpathElement C D P elementSelector waitInMilliseconds w =
    (Thrown (TypeError "indexOf is not a function"), w)
  /\ forall optionName,
       selectDropdownValueByVisibleText C D P elementSelector optionName w =
       (Normal (Rejected (TypeError "indexOf is not a function")), w).
Proof. split; [| intros optionName]; reflexivity. Qed.
